(** * Document and page census over a client-folder hierarchy

    Shallow embedding of [scripts/count_documents.py].

    Conventions of the model:
    - a Python [str] is a Rocq [string], one [ascii] per character (the
      characters of code below 256);
    - a Python [int] is a [Z];
    - a [pathlib.Path] is the list of its parts, on a POSIX system:
      [str(path)] joins them with [/], and paths are compared as
      case-sensitive strings;
    - console output, import attempts, backend calls and file writes are
      recorded, in order, in a trace of events; an exception is a value of
      [exn] carried by the computation;
    - the file system is a tree of directories and regular files (no
      symbolic links; a subdirectory that [os.walk] cannot read counts as
      empty, as the walk skips it silently); the scan root itself may be
      missing or unreadable; what the two parsing libraries make of a file
      is part of the file. *)

From Stdlib Require Import List String Ascii ZArith Lia Bool Arith.
From Stdlib Require Import Sorting.Sorted Sorting.Permutation.
From Stdlib Require Import Numbers.DecimalString.
Import ListNotations.

Local Open Scope string_scope.
Local Open Scope Z_scope.

(** ** Strings *)

Module Str.

Definition dquote : ascii := Eval cbv in ascii_of_nat 34.
Definition comma : ascii := ","%char.

(** [c.lower()] on one character of code below 256. *)
Definition lower_char (c : ascii) : ascii :=
  let n := nat_of_ascii c in
  if ((65 <=? n) && (n <=? 90))%nat
     || ((192 <=? n) && (n <=? 222) && negb (n =? 215))%nat
  then ascii_of_nat (n + 32)
  else c.

(** [s.lower()] *)
Fixpoint lower (s : string) : string :=
  match s with
  | EmptyString => EmptyString
  | String c r => String (lower_char c) (lower r)
  end.

(** [s.endswith(suffix)] *)
Definition endswith (s suffix : string) : bool :=
  (String.length suffix <=? String.length s)%nat
  && String.eqb
       (substring (String.length s - String.length suffix)
                  (String.length suffix) s)
       suffix.

(** [c in s] for a single character [c]. *)
Fixpoint contains (c : ascii) (s : string) : bool :=
  match s with
  | EmptyString => false
  | String d r => Ascii.eqb c d || contains c r
  end.

(** [s * n] *)
Fixpoint repeat (s : string) (n : nat) : string :=
  match n with
  | O => EmptyString
  | S k => s ++ repeat s k
  end.

(** [len(s)] *)
Definition len (s : string) : Z := Z.of_nat (String.length s).

(** [str(n)] for an integer. *)
Definition of_int (n : Z) : string := NilZero.string_of_int (Z.to_int n).

(** [sep.join(parts)] *)
Definition join (sep : string) (parts : list string) : string :=
  String.concat sep parts.

End Str.

(** [sum(l)] for a list of integers. *)
Definition py_sum (l : list Z) : Z := fold_left Z.add l 0.

(** ** Exceptions, events and the computation monad *)

Inductive exn : Type :=
| ImportError (msg : string)
| FileNotFoundError (msg : string)
| NotADirectoryError (msg : string)
| PermissionError (msg : string)
| ValueError (msg : string)
| Exception (msg : string).

(** [str(e)] *)
Definition exn_msg (e : exn) : string :=
  match e with
  | ImportError m | FileNotFoundError m | NotADirectoryError m
  | PermissionError m | ValueError m | Exception m => m
  end.

Definition is_ImportError (e : exn) : bool :=
  match e with ImportError _ => true | _ => false end.

Inductive event : Type :=
| EvPrint (line : string)              (* print(line) *)
| EvImport (module : string)           (* an import statement is executed *)
| EvPdfReader (path : string)          (* PdfReader(path) is called *)
| EvDocument (path : string)           (* Document(path) is called *)
| EvWrite (path : string) (text : string).  (* text written to a file *)

Definition is_import (e : event) : bool :=
  match e with EvImport _ => true | _ => false end.

Definition M (A : Type) : Type := (list event * (exn + A))%type.

Definition ret {A} (a : A) : M A := ([], inr a).

Definition raise {A} (e : exn) : M A := ([], inl e).

Definition bind {A B} (m : M A) (k : A -> M B) : M B :=
  match m with
  | (t, inl e) => (t, inl e)
  | (t, inr a) => let (t', r) := k a in ((t ++ t')%list, r)
  end.

(** [try: m  except <class> as e: h e]; an exception outside the class
    passes through. *)
Definition try_except {A} (m : M A) (catches : exn -> bool) (h : exn -> M A)
  : M A :=
  match m with
  | (t, inl e) =>
      if catches e then let (t', r) := h e in ((t ++ t')%list, r) else (t, inl e)
  | (t, inr a) => (t, inr a)
  end.

Definition emit (e : event) : M unit := ([e], inr tt).

Definition print (line : string) : M unit := emit (EvPrint line).

Definition trace {A} (m : M A) : list event := fst m.
Definition outcome {A} (m : M A) : exn + A := snd m.

Declare Scope py_scope.
Delimit Scope py_scope with py.
Notation "x <- m ;; k" := (bind m (fun x => k))
  (at level 61, m at next level, right associativity) : py_scope.
Notation "m ;; k" := (bind m (fun _ => k))
  (at level 61, right associativity) : py_scope.
Local Open Scope py_scope.

(** [for a in l: s = body a s] *)
Fixpoint for_each {A S} (l : list A) (body : A -> S -> M S) (s : S) : M S :=
  match l with
  | [] => ret s
  | a :: r => s' <- body a s ;; for_each r body s'
  end.

(** [[a for a in l if test(a)]] *)
Fixpoint filter_m {A} (test : A -> M bool) (l : list A) : M (list A) :=
  match l with
  | [] => ret []
  | a :: r =>
      b <- test a ;;
      if b then (rest <- filter_m test r ;; ret (a :: rest))
      else filter_m test r
  end.

(** ** The file system *)

(** A regular file: its name and what each parsing library does with it,
    the number of pages [len(PdfReader(path).pages)] and the paragraph texts
    [[p.text for p in Document(path).paragraphs]], or the exception raised. *)
Record file : Type := mkFile {
  file_name : string;
  as_pdf : exn + nat;
  as_docx : exn + list string
}.

#[warnings="-register-all"] Inductive node : Type :=
| File (f : file)
| Dir (name : string) (entries : list node).

Definition node_name (n : node) : string :=
  match n with
  | File f => file_name f
  | Dir name _ => name
  end.

(** [path.is_dir()] for a listed entry. *)
Definition is_dir (n : node) : bool :=
  match n with Dir _ _ => true | File _ => false end.

(** What is found at the scan root: nothing, a node that can be read, a
    directory that cannot be listed (no read permission), or a directory
    that can be listed but whose entries cannot be examined (no search
    permission). *)
Inductive path_state : Type :=
| Missing
| Present (n : node)
| Unlistable (name : string)
| Unsearchable (name : string) (entries : list node).

Definition path_exists (p : path_state) : bool :=
  match p with Missing => false | _ => true end.

Definition path := list string.

Definition sep : string := "/".

(** [str(path)]; the path without parts is the current directory. *)
Definition path_str (p : path) : string :=
  match p with
  | [] => "."
  | _ => Str.join sep p
  end.

(** [path.iterdir()]: the entries of a directory in listing order. *)
Definition iterdir (p : path) (st : path_state) : M (list node) :=
  match st with
  | Present (Dir _ entries) => ret entries
  | Present (File _) =>
      raise (NotADirectoryError
               ("[Errno 20] Not a directory: '" ++ path_str p ++ "'"))
  | Missing =>
      raise (FileNotFoundError
               ("[Errno 2] No such file or directory: '" ++ path_str p
                ++ "'"))
  | Unlistable _ =>
      raise (PermissionError
               ("[Errno 13] Permission denied: '" ++ path_str p ++ "'"))
  | Unsearchable _ entries => ret entries
  end.

(** [f.is_dir()] for an entry [f] that [iterdir] gave for the scan root. *)
Definition entry_is_dir (p : path) (st : path_state) : node -> M bool :=
  match st with
  | Unsearchable _ _ =>
      fun n =>
        raise (PermissionError
                 ("[Errno 13] Permission denied: '"
                  ++ path_str (p ++ [node_name n])%list ++ "'"))
  | _ => fun n => ret (is_dir n)
  end.

Definition subdir_names (entries : list node) : list string :=
  map node_name (filter is_dir entries).

Fixpoint regular_files (entries : list node) : list file :=
  match entries with
  | [] => []
  | File f :: r => f :: regular_files r
  | Dir _ _ :: r => regular_files r
  end.

(** [os.walk(top)], top down: the directory itself, then each of its
    subdirectories in listing order. *)
Fixpoint os_walk (top : path) (n : node)
  : list (path * list string * list file) :=
  match n with
  | File _ => []
  | Dir _ entries =>
      (top, subdir_names entries, regular_files entries)
      :: flat_map (fun e => os_walk (top ++ [node_name e])%list e) entries
  end.

(** [path.relative_to(other)] *)
Fixpoint relative_to (p other : path) : M path :=
  match other, p with
  | [], _ => ret p
  | o :: other', x :: p' =>
      if String.eqb o x then relative_to p' other'
      else raise (ValueError "path is not in the subpath of other")
  | _ :: _, [] => raise (ValueError "path is not in the subpath of other")
  end.

(** ** Module initialisation: backend availability *)

Record globals : Type := mkGlobals {
  PDF_SUPPORT : bool;
  DOCX_SUPPORT : bool
}.

(** [from module import name]: [installed module] tells whether the
    statement succeeds, that is whether the module is installed and provides
    the name that is imported from it; it raises [ImportError] otherwise
    (with a message that the handlers do not use). *)
Definition import_from (installed : string -> bool) (module : string)
  : M unit :=
  emit (EvImport module) ;;
  if installed module then ret tt
  else raise (ImportError ("No module named '" ++ module ++ "'")).

(** The two try/except blocks at the top of the module. *)
Definition module_init (installed : string -> bool) : M globals :=
  pdf <- try_except
           (import_from installed "pypdf" ;; ret true)
           is_ImportError
           (fun _ =>
              try_except
                (import_from installed "PyPDF2" ;; ret true)
                is_ImportError
                (fun _ =>
                   print "Warning: pypdf or PyPDF2 not installed. PDF page counting will be unavailable." ;;
                   print "Install with: pip install pypdf" ;;
                   ret false)) ;;
  docx <- try_except
            (import_from installed "docx" ;; ret true)
            is_ImportError
            (fun _ =>
               print "Warning: python-docx not installed. DOCX page counting will be unavailable." ;;
               print "Install with: pip install python-docx" ;;
               ret false) ;;
  ret {| PDF_SUPPORT := pdf; DOCX_SUPPORT := docx |}.

(** ** Page estimators *)

(** [len(PdfReader(file_path).pages)] *)
Definition PdfReader (file_path : string) (f : file) : M nat :=
  emit (EvPdfReader file_path) ;;
  match as_pdf f with
  | inl e => raise e
  | inr n => ret n
  end.

(** [[p.text for p in Document(file_path).paragraphs]] *)
Definition Document (file_path : string) (f : file) : M (list string) :=
  emit (EvDocument file_path) ;;
  match as_docx f with
  | inl e => raise e
  | inr ps => ret ps
  end.

Definition any_Exception (_ : exn) : bool := true.

Definition count_pdf_pages (g : globals) (file_path : string) (f : file)
  : M Z :=
  if negb (PDF_SUPPORT g) then ret 0
  else
    try_except
      (n <- PdfReader file_path f ;; ret (Z.of_nat n))
      any_Exception
      (fun e =>
         print ("  Warning: Could not read PDF '" ++ file_path ++ "': "
                ++ exn_msg e) ;;
         ret 0).

(** [sum(len(p.text) for p in doc.paragraphs)] *)
Definition total_chars (paragraphs : list string) : Z :=
  py_sum (map Str.len paragraphs).

Definition estimated_pages (total_chars : Z) : Z :=
  if 0 <? total_chars then Z.max 1 (total_chars / 3000) else 1.

Definition count_docx_pages (g : globals) (file_path : string) (f : file)
  : M Z :=
  if negb (DOCX_SUPPORT g) then ret 0
  else
    try_except
      (paragraphs <- Document file_path f ;;
       ret (estimated_pages (total_chars paragraphs)))
      any_Exception
      (fun e =>
         print ("  Warning: Could not read DOCX '" ++ file_path ++ "': "
                ++ exn_msg e) ;;
         ret 0).

(** ** Aggregation *)

Record doc_record : Type := mkDoc {
  doc_file : string;
  doc_pages : Z
}.

Record client_stats : Type := mkClient {
  pdf_files : list doc_record;
  docx_files : list doc_record;
  pdf_count : Z;
  docx_count : Z;
  pdf_pages : Z;
  docx_pages : Z;
  total_documents : Z;
  total_pages : Z
}.

(** The global totals; its keys [total_documents] and [total_pages] are
    those of the source, in a name space of their own. *)
Module Summary.
Record t : Type := mk {
  total_pdf_files : Z;
  total_docx_files : Z;
  total_pdf_pages : Z;
  total_docx_pages : Z;
  total_documents : Z;
  total_pages : Z
}.
End Summary.

(** An insertion-ordered dictionary with string keys. *)
Definition dict (V : Type) : Type := list (string * V).

(** [d[k] = v] *)
Fixpoint dict_set {V} (d : dict V) (k : string) (v : V) : dict V :=
  match d with
  | [] => [(k, v)]
  | (k', v') :: r =>
      if String.eqb k' k then (k', v) :: r else (k', v') :: dict_set r k v
  end.

Record Report : Type := mkReport {
  clients : dict client_stats;
  summary : Summary.t;
  analyzed_path : string;
  analyzed_at : string
}.

Definition empty_client_stats : client_stats :=
  mkClient [] [] 0 0 0 0 0 0.

Definition empty_total_stats : Summary.t :=
  Summary.mk 0 0 0 0 0 0.

(** The branch taken for a PDF file. *)
Definition record_pdf (cs : client_stats) (relative_path : string) (pages : Z)
  : client_stats :=
  {| pdf_files := pdf_files cs ++ [mkDoc relative_path pages];
     docx_files := docx_files cs;
     pdf_count := pdf_count cs + 1;
     docx_count := docx_count cs;
     pdf_pages := pdf_pages cs + pages;
     docx_pages := docx_pages cs;
     total_documents := total_documents cs;
     total_pages := total_pages cs |}.

(** The branch taken for a Word file. *)
Definition record_docx (cs : client_stats) (relative_path : string) (pages : Z)
  : client_stats :=
  {| pdf_files := pdf_files cs;
     docx_files := docx_files cs ++ [mkDoc relative_path pages];
     pdf_count := pdf_count cs;
     docx_count := docx_count cs + 1;
     pdf_pages := pdf_pages cs;
     docx_pages := docx_pages cs + pages;
     total_documents := total_documents cs;
     total_pages := total_pages cs |}.

(** Lines 143-145: the totals of one client. *)
Definition set_client_totals (cs : client_stats) : client_stats :=
  {| pdf_files := pdf_files cs;
     docx_files := docx_files cs;
     pdf_count := pdf_count cs;
     docx_count := docx_count cs;
     pdf_pages := pdf_pages cs;
     docx_pages := docx_pages cs;
     total_documents := pdf_count cs + docx_count cs;
     total_pages := pdf_pages cs + docx_pages cs |}.

(** Lines 149-155: the global totals take one client in. *)
Definition add_to_totals (ts : Summary.t) (cs : client_stats) : Summary.t :=
  {| Summary.total_pdf_files := Summary.total_pdf_files ts + pdf_count cs;
     Summary.total_docx_files := Summary.total_docx_files ts + docx_count cs;
     Summary.total_pdf_pages := Summary.total_pdf_pages ts + pdf_pages cs;
     Summary.total_docx_pages := Summary.total_docx_pages ts + docx_pages cs;
     Summary.total_documents :=
       Summary.total_documents ts + total_documents cs;
     Summary.total_pages := Summary.total_pages ts + total_pages cs |}.

(** [sorted(l)] for elements compared by a string key: the stable sorted
    permutation. *)
Fixpoint insert_by {A} (key : A -> string) (x : A) (l : list A) : list A :=
  match l with
  | [] => [x]
  | y :: r =>
      if String.leb (key x) (key y) then x :: l else y :: insert_by key x r
  end.

Definition sorted {A} (key : A -> string) (l : list A) : list A :=
  fold_right (insert_by key) [] l.

Definition newline : ascii := Eval cbv in ascii_of_nat 10.
Definition nl : string := String newline EmptyString.

(** ** The scan *)

(** Body of [for file in files] (lines 114-141). *)
Definition file_body (g : globals) (client_folder root : path) (f : file)
           (cs : client_stats) : M client_stats :=
  let name := file_name f in
  let file_path := (root ++ [name])%list in
  relative_path <- relative_to file_path client_folder ;;
  if Str.endswith (Str.lower name) ".pdf" then
    pages <- count_pdf_pages g (path_str file_path) f ;;
    ret (record_pdf cs (path_str relative_path) pages)
  else if Str.endswith (Str.lower name) ".docx"
          || Str.endswith (Str.lower name) ".doc" then
    pages <- (if Str.endswith (Str.lower name) ".docx" then
                count_docx_pages g (path_str file_path) f
              else
                print ("  Note: .doc file skipped for page count: " ++ name) ;;
                ret 0) ;;
    ret (record_docx cs (path_str relative_path) pages)
  else ret cs.

(** Body of [for root, dirs, files in os.walk(client_folder)]. *)
Definition walk_body (g : globals) (client_folder : path)
           (entry : path * list string * list file) (cs : client_stats)
  : M client_stats :=
  let '(root, _, files) := entry in
  for_each files (file_body g client_folder root) cs.

(** Lines 100-145: the statistics of one client folder. *)
Definition client_scan (g : globals) (client_folder : path) (n : node)
  : M client_stats :=
  cs <- for_each (os_walk client_folder n) (walk_body g client_folder)
                 empty_client_stats ;;
  ret (set_client_totals cs).

(** Body of [for client_folder in sorted(client_folders)] (lines 97-159). *)
Definition client_body (g : globals) (root_path : path) (n : node)
           (acc : dict client_stats * Summary.t)
  : M (dict client_stats * Summary.t) :=
  let '(results, total_stats) := acc in
  let client_folder := (root_path ++ [node_name n])%list in
  let client_name := node_name n in
  print (nl ++ "Processing: " ++ client_name) ;;
  cs <- client_scan g client_folder n ;;
  let results := dict_set results client_name cs in
  let total_stats := add_to_totals total_stats cs in
  print ("  PDFs: " ++ Str.of_int (pdf_count cs) ++ " ("
         ++ Str.of_int (pdf_pages cs) ++ " pages)") ;;
  print ("  Word: " ++ Str.of_int (docx_count cs) ++ " ("
         ++ Str.of_int (docx_pages cs) ++ " pages estimated)") ;;
  print ("  Total: " ++ Str.of_int (total_documents cs) ++ " documents, "
         ++ Str.of_int (total_pages cs) ++ " pages") ;;
  ret (results, total_stats).

(** [analyze_folder(root_path)]: [st] is what the file system holds at
    [root_path], [now] is [datetime.now().isoformat()]. *)
Definition analyze_folder (g : globals) (root_path : path) (st : path_state)
           (now : string) : M Report :=
  if negb (path_exists st) then
    raise (FileNotFoundError ("Path does not exist: " ++ path_str root_path))
  else
    entries <- iterdir root_path st ;;
    client_folders <- filter_m (entry_is_dir root_path st) entries ;;
    print (nl ++ "Analyzing "
           ++ Str.of_int (Z.of_nat (List.length client_folders))
           ++ " client folders in: " ++ path_str root_path ++ nl) ;;
    print (Str.repeat "=" 80) ;;
    acc <- for_each (sorted node_name client_folders)
                    (client_body g root_path)
                    ([], empty_total_stats) ;;
    ret {| clients := fst acc;
           summary := snd acc;
           analyzed_path := path_str root_path;
           analyzed_at := now |}.

(** ** The CSV report *)

Definition csv_header : string :=
  "Client Folder,PDF Count,DOCX Count,Total Documents,PDF Pages,DOCX Pages (est),Total Pages"
  ++ nl.

Definition safe_name (client_name : string) : string :=
  if Str.contains Str.comma client_name
  then String Str.dquote (client_name ++ String Str.dquote EmptyString)
  else client_name.

(** One data row, as written by the two f-strings of lines 220-221. *)
Definition csv_row (client_name : string) (stats : client_stats) : string :=
  safe_name client_name ++ "," ++ Str.of_int (pdf_count stats)
  ++ "," ++ Str.of_int (docx_count stats)
  ++ "," ++ Str.of_int (total_documents stats)
  ++ "," ++ Str.of_int (pdf_pages stats)
  ++ "," ++ Str.of_int (docx_pages stats)
  ++ "," ++ Str.of_int (total_pages stats) ++ nl.

Definition csv_total_row (s : Summary.t) : string :=
  "TOTAL," ++ Str.of_int (Summary.total_pdf_files s)
  ++ "," ++ Str.of_int (Summary.total_docx_files s)
  ++ "," ++ Str.of_int (Summary.total_documents s)
  ++ "," ++ Str.of_int (Summary.total_pdf_pages s)
  ++ "," ++ Str.of_int (Summary.total_docx_pages s)
  ++ "," ++ Str.of_int (Summary.total_pages s) ++ nl.

(** The successive [f.write] calls of [save_csv_report]. *)
Definition csv_writes (results : Report) : list string :=
  (csv_header
   :: map (fun kv => csv_row (fst kv) (snd kv)) (sorted fst (clients results))
  ++ [csv_total_row (summary results)])%list.

Definition save_csv_report (results : Report) (output_path : string)
  : M unit :=
  emit (EvWrite output_path (String.concat "" (csv_writes results))) ;;
  print ("CSV report saved to: " ++ output_path).

(** * Definitions used to state the properties *)

(** The last character of [s], or [d] when [s] is empty. *)
Fixpoint str_last (s : string) (d : ascii) : ascii :=
  match s with
  | EmptyString => d
  | String c r => str_last r c
  end.

(** Case-insensitive suffix test, as the source writes it. *)
Definition has_ext (name ext : string) : bool :=
  Str.endswith (Str.lower name) ext.

(** Induction on a file tree, with the hypothesis for every entry of a
    directory. *)
Fixpoint node_rect' (P : node -> Prop)
         (HF : forall f, P (File f))
         (HD : forall name entries, Forall P entries -> P (Dir name entries))
         (n : node) : P n :=
  match n with
  | File f => HF f
  | Dir name entries =>
      HD name entries
         ((fix all (l : list node) : Forall P l :=
             match l with
             | [] => Forall_nil P
             | e :: r => Forall_cons e (node_rect' P HF HD e) (all r)
             end) entries)
  end.

(** The value that [count_pdf_pages] returns. *)
Definition pdf_pages_of (g : globals) (f : file) : Z :=
  if PDF_SUPPORT g
  then match as_pdf f with inr n => Z.of_nat n | inl _ => 0 end
  else 0.

(** The value that [count_docx_pages] returns. *)
Definition docx_pages_of (g : globals) (f : file) : Z :=
  if DOCX_SUPPORT g
  then match as_docx f with
       | inr ps => estimated_pages (total_chars ps)
       | inl _ => 0
       end
  else 0.

(** The effect of one file on the statistics of its client. *)
Definition file_step (g : globals) (relative_path : string) (f : file)
           (cs : client_stats) : client_stats :=
  if has_ext (file_name f) ".pdf" then
    record_pdf cs relative_path (pdf_pages_of g f)
  else if has_ext (file_name f) ".docx" || has_ext (file_name f) ".doc" then
    record_docx cs relative_path
                (if has_ext (file_name f) ".docx" then docx_pages_of g f else 0)
  else cs.

(** The scan root exists and is a directory. *)
Definition is_directory (st : path_state) : bool :=
  match st with
  | Present (Dir _ _) | Unlistable _ | Unsearchable _ _ => true
  | _ => false
  end.

(** The scan root is a directory that line 91 can read: it can be listed,
    and its entries can be examined or there is none. *)
Definition can_be_scanned (st : path_state) : bool :=
  match st with
  | Present (Dir _ _) | Unsearchable _ [] => true
  | _ => false
  end.

(** What the scan does once the client folders are known (lines 93-166). *)
Definition scan_client_folders (g : globals) (root_path : path)
           (client_folders : list node) (now : string) : M Report :=
  print (nl ++ "Analyzing "
         ++ Str.of_int (Z.of_nat (List.length client_folders))
         ++ " client folders in: " ++ path_str root_path ++ nl) ;;
  print (Str.repeat "=" 80) ;;
  acc <- for_each (sorted node_name client_folders)
                  (client_body g root_path)
                  ([], empty_total_stats) ;;
  ret {| clients := fst acc;
         summary := snd acc;
         analyzed_path := path_str root_path;
         analyzed_at := now |}.

(** The path of a file relative to its client folder. *)
Definition rel_path (client_folder root : path) (name : string) : string :=
  path_str (skipn (List.length client_folder) root ++ [name])%list.

Definition files_step (g : globals) (client_folder root : path)
           (cs : client_stats) (f : file) : client_stats :=
  file_step g (rel_path client_folder root (file_name f)) f cs.

Definition walk_step (g : globals) (client_folder : path) (cs : client_stats)
           (entry : path * list string * list file) : client_stats :=
  let '(root, _, files) := entry in
  fold_left (files_step g client_folder root) files cs.

Definition client_stats_of (g : globals) (client_folder : path) (n : node)
  : client_stats :=
  set_client_totals
    (fold_left (walk_step g client_folder) (os_walk client_folder n)
               empty_client_stats).

Definition scan_step (g : globals) (root_path : path)
           (acc : dict client_stats * Summary.t) (n : node)
  : dict client_stats * Summary.t :=
  let cs := client_stats_of g (root_path ++ [node_name n])%list n in
  (dict_set (fst acc) (node_name n) cs, add_to_totals (snd acc) cs).

Definition report_of (g : globals) (root_path : path) (entries : list node)
           (now : string) : Report :=
  let acc := fold_left (scan_step g root_path)
                       (sorted node_name (filter is_dir entries))
                       ([], empty_total_stats) in
  mkReport (fst acc) (snd acc) (path_str root_path) now.

Definition doc_note (name : string) : event :=
  EvPrint ("  Note: .doc file skipped for page count: " ++ name).

Definition is_pdf_open (e : event) : bool :=
  match e with EvPdfReader _ => true | _ => false end.

Definition is_docx_open (e : event) : bool :=
  match e with EvDocument _ => true | _ => false end.

Definition key_le {A} (key : A -> string) (x y : A) : Prop :=
  String.leb (key x) (key y) = true.

Definition keys {V} (d : dict V) : list string := map fst d.

(** [d.values()] *)
Definition values {V} (d : dict V) : list V := map snd d.

Definition client_totals_ok (cs : client_stats) : Prop :=
  total_documents cs = pdf_count cs + docx_count cs
  /\ total_pages cs = pdf_pages cs + docx_pages cs.

Definition summary_totals_ok (s : Summary.t) : Prop :=
  Summary.total_documents s
  = Summary.total_pdf_files s + Summary.total_docx_files s
  /\ Summary.total_pages s
     = Summary.total_pdf_pages s + Summary.total_docx_pages s.

(** Sibling directories have distinct names. *)
Definition distinct_names (entries : list node) : Prop :=
  NoDup (subdir_names entries).

Definition summary_is_sum (acc : dict client_stats * Summary.t) : Prop :=
  Summary.total_documents (snd acc)
  = py_sum (map total_documents (values (fst acc)))
  /\ Summary.total_pages (snd acc)
     = py_sum (map total_pages (values (fst acc))).

Definition is_word (f : file) : bool :=
  has_ext (file_name f) ".docx" || has_ext (file_name f) ".doc".

(** The regular files met by the walk of a client folder. *)
Definition client_files (client_folder : path) (n : node) : list file :=
  flat_map (fun entry => snd entry) (os_walk client_folder n).

Definition word_count (client_folder : path) (n : node) : Z :=
  Z.of_nat (List.length (filter is_word (client_files client_folder n))).

(** A reader of comma-separated records in the usual convention (RFC 4180,
    as Python's [csv.reader] applies it to a file opened with [newline='']):
    a field that starts with a double quote runs to the closing double
    quote, a doubled double quote inside it stands for one and line ends
    inside it are data; elsewhere a comma ends the field, and a line feed, a
    carriage return or the two in a row end the record; an empty line is a
    record without fields. *)
Inductive csv_state : Type :=
| StartField
| InField
| InQuoted
| QuoteInQuoted.

Definition push (cur : string) (c : ascii) : string :=
  cur ++ String c EmptyString.

Definition creturn : ascii := Eval cbv in ascii_of_nat 13.

Definition is_eol (c : ascii) : bool :=
  Ascii.eqb c newline || Ascii.eqb c creturn.

(** What follows a line end [c]: a line feed right after a carriage return
    belongs to the same line end. *)
Definition after_eol (c : ascii) (r : string) : string :=
  if Ascii.eqb c creturn then
    match r with
    | String c2 r2 => if Ascii.eqb c2 newline then r2 else r
    | EmptyString => r
    end
  else r.

(** The record that a line end closes. *)
Definition close_record (st : csv_state) (cur : string) (row : list string)
  : list string :=
  match st, row with
  | StartField, [] => []
  | _, _ => (row ++ [cur])%list
  end.

Fixpoint csv_parse_from (st : csv_state) (cur : string) (row : list string)
         (s : string) : list (list string) :=
  match s with
  | EmptyString =>
      match st, row with
      | StartField, [] => []
      | _, _ => [(row ++ [cur])%list]
      end
  | String c r =>
      match st with
      | StartField =>
          if Ascii.eqb c Str.dquote then csv_parse_from InQuoted cur row r
          else if Ascii.eqb c Str.comma then
            csv_parse_from StartField EmptyString (row ++ [cur])%list r
          else if is_eol c then
            close_record StartField cur row
            :: csv_parse_from StartField EmptyString []
                 (after_eol c r)
          else csv_parse_from InField (push cur c) row r
      | InField =>
          if Ascii.eqb c Str.comma then
            csv_parse_from StartField EmptyString (row ++ [cur])%list r
          else if is_eol c then
            close_record InField cur row
            :: csv_parse_from StartField EmptyString []
                 (after_eol c r)
          else csv_parse_from InField (push cur c) row r
      | InQuoted =>
          if Ascii.eqb c Str.dquote then csv_parse_from QuoteInQuoted cur row r
          else csv_parse_from InQuoted (push cur c) row r
      | QuoteInQuoted =>
          if Ascii.eqb c Str.dquote then
            csv_parse_from InQuoted (push cur c) row r
          else if Ascii.eqb c Str.comma then
            csv_parse_from StartField EmptyString (row ++ [cur])%list r
          else if is_eol c then
            close_record QuoteInQuoted cur row
            :: csv_parse_from StartField EmptyString []
                 (after_eol c r)
          else csv_parse_from InField (push cur c) row r
      end
  end.

Definition csv_parse (text : string) : list (list string) :=
  csv_parse_from StartField EmptyString [] text.

(** The text that [save_csv_report] writes. *)
Definition csv_text (results : Report) : string :=
  String.concat "" (csv_writes results).

(** A client folder whose name holds a comma and a double quote. *)
Definition quote_comma_name : string :=
  String "a" (String Str.dquote (String Str.comma (String "b" EmptyString))).

Definition quote_comma_root : path_state :=
  Present (Dir "clients"
               [Dir quote_comma_name
                    [File (mkFile "a.pdf" (inr 3%nat) (inl (Exception "")))]]).

(** A name that can be read back: no double quote and no line end. *)
Definition readable_name (k : string) : Prop :=
  Str.contains Str.dquote k = false
  /\ Str.contains newline k = false
  /\ Str.contains creturn k = false.

(** A string with no double quote, no comma and no line end. *)
Definition plain (s : string) : Prop :=
  Str.contains Str.dquote s = false
  /\ Str.contains Str.comma s = false
  /\ Str.contains newline s = false
  /\ Str.contains creturn s = false.

Definition row_fields (kv : string * client_stats) : list string :=
  [fst kv;
   Str.of_int (pdf_count (snd kv)); Str.of_int (docx_count (snd kv));
   Str.of_int (total_documents (snd kv)); Str.of_int (pdf_pages (snd kv));
   Str.of_int (docx_pages (snd kv)); Str.of_int (total_pages (snd kv))].

Definition total_fields (s : Summary.t) : list string :=
  ["TOTAL";
   Str.of_int (Summary.total_pdf_files s);
   Str.of_int (Summary.total_docx_files s);
   Str.of_int (Summary.total_documents s);
   Str.of_int (Summary.total_pdf_pages s);
   Str.of_int (Summary.total_docx_pages s);
   Str.of_int (Summary.total_pages s)].

Definition header_fields : list string :=
  ["Client Folder"; "PDF Count"; "DOCX Count"; "Total Documents";
   "PDF Pages"; "DOCX Pages (est)"; "Total Pages"].

(** A report with the one client [Smith, John]. *)
Definition smith_report : Report :=
  mkReport [("Smith, John", set_client_totals (mkClient [] [] 2 1 7 1 0 0))]
           (Summary.mk 2 1 7 1 3 8) "/clients" "2025-01-01T00:00:00".

(** Values of a worked scan: both backends available, or no PDF backend. *)
Definition demo_globals : globals := mkGlobals true true.

Definition no_pdf_globals : globals := mkGlobals false true.

Definition demo_path : path := [""; "clients"].

Definition demo_now : string := "2025-01-01T00:00:00".

Definition report_pdf : file :=
  mkFile "report.PDF" (inr 3%nat) (inl (Exception "not a Word file")).

Definition empty_docx : file :=
  mkFile "empty.docx" (inl (Exception "not a PDF")) (inr []).

Definition old_doc : file :=
  mkFile "old.DOC" (inl (Exception "not a PDF"))
         (inl (Exception "not a Word file")).

Definition bad_pdf : file :=
  mkFile "bad.pdf" (inl (Exception "EOF marker not found"))
         (inl (Exception "not a Word file")).

Definition stray_pdf : file :=
  mkFile "stray.pdf" (inr 9%nat) (inl (Exception "not a Word file")).

Definition long_docx : file :=
  mkFile "long.docx" (inl (Exception "not a PDF"))
         (inr [Str.repeat "a" 3000; Str.repeat "b" 3000]).

Definition acme : node :=
  Dir "Acme" [File report_pdf; Dir "letters" [File empty_docx; File old_doc]].

Definition beta : node := Dir "Beta" [File bad_pdf].

Definition demo_entries : list node := [beta; File stray_pdf; acme].

Definition demo_root : path_state := Present (Dir "clients" demo_entries).

Definition demo_report : Report :=
  report_of demo_globals demo_path demo_entries demo_now.

(** ** Definitions for the further properties of the scan *)

(** The files met by the walk of a client folder, each with the directory
    that [os.walk] yields it in, in the order of the two nested loops. *)
Definition walked (client_folder : path) (n : node) : list (path * file) :=
  flat_map (fun entry : path * list string * list file =>
              map (fun f => (fst (fst entry), f)) (snd entry))
           (os_walk client_folder n).

Definition is_pdf (f : file) : bool := has_ext (file_name f) ".pdf".

(** The pages recorded for a Word file. *)
Definition word_pages_of (g : globals) (f : file) : Z :=
  if has_ext (file_name f) ".docx" then docx_pages_of g f else 0.

Definition pdf_record (g : globals) (client_folder : path)
           (rf : path * file) : doc_record :=
  mkDoc (rel_path client_folder (fst rf) (file_name (snd rf)))
        (pdf_pages_of g (snd rf)).

Definition word_record (g : globals) (client_folder : path)
           (rf : path * file) : doc_record :=
  mkDoc (rel_path client_folder (fst rf) (file_name (snd rf)))
        (word_pages_of g (snd rf)).

(** The counters of a client agree with its two lists of records. *)
Definition counters_match_records (cs : client_stats) : Prop :=
  pdf_count cs = Z.of_nat (List.length (pdf_files cs))
  /\ docx_count cs = Z.of_nat (List.length (docx_files cs))
  /\ pdf_pages cs = py_sum (map doc_pages (pdf_files cs))
  /\ docx_pages cs = py_sum (map doc_pages (docx_files cs)).

(** No number of a client's statistics is negative. *)
Definition nonnegative_stats (cs : client_stats) : Prop :=
  Forall (fun d => 0 <= doc_pages d) (pdf_files cs)
  /\ Forall (fun d => 0 <= doc_pages d) (docx_files cs)
  /\ 0 <= pdf_count cs /\ 0 <= docx_count cs
  /\ 0 <= pdf_pages cs /\ 0 <= docx_pages cs
  /\ 0 <= total_documents cs /\ 0 <= total_pages cs.

(** File [f] lies in the directory reached from [n] by the directory names
    [q]. *)
Inductive located : node -> list string -> file -> Prop :=
| located_here (name : string) (entries : list node) (f : file) :
    In (File f) entries -> located (Dir name entries) [] f
| located_below (name : string) (entries : list node) (d : node)
                (q : list string) (f : file) :
    In d entries -> located d q f ->
    located (Dir name entries) (node_name d :: q) f.

(** No number of the summary is negative. *)
Definition nonnegative_summary (s : Summary.t) : Prop :=
  0 <= Summary.total_pdf_files s /\ 0 <= Summary.total_docx_files s
  /\ 0 <= Summary.total_pdf_pages s /\ 0 <= Summary.total_docx_pages s
  /\ 0 <= Summary.total_documents s /\ 0 <= Summary.total_pages s.

(** Each per-format number of the summary is the sum over the clients. *)
Definition summary_parts_are_sums (acc : dict client_stats * Summary.t)
  : Prop :=
  Summary.total_pdf_files (snd acc)
  = py_sum (map pdf_count (values (fst acc)))
  /\ Summary.total_docx_files (snd acc)
     = py_sum (map docx_count (values (fst acc)))
  /\ Summary.total_pdf_pages (snd acc)
     = py_sum (map pdf_pages (values (fst acc)))
  /\ Summary.total_docx_pages (snd acc)
     = py_sum (map docx_pages (values (fst acc))).

Definition notes_txt : file :=
  mkFile "notes.txt" (inr 2%nat) (inr ["some text"]).


(** The paths on which [PdfReader] is called, in order. *)
Definition pdf_opens (t : list event) : list string :=
  flat_map (fun e => match e with EvPdfReader p => [p] | _ => [] end) t.

(** The paths on which [Document] is called, in order. *)
Definition docx_opens (t : list event) : list string :=
  flat_map (fun e => match e with EvDocument p => [p] | _ => [] end) t.

Definition is_docx (f : file) : bool := has_ext (file_name f) ".docx".

(** [str(file_path)] for a walked file. *)
Definition walked_path (rf : path * file) : string :=
  path_str (fst rf ++ [file_name (snd rf)])%list.

(** The order of Python on strings. *)
Definition str_le (a b : string) : Prop := String.leb a b = true.

(** The modules whose import is attempted, in order. *)
Definition imports (t : list event) : list string :=
  flat_map (fun e => match e with EvImport m => [m] | _ => [] end) t.

(** The lines printed, in order. *)
Definition printed (t : list event) : list string :=
  flat_map (fun e => match e with EvPrint line => [line] | _ => [] end) t.

(** The files written, in order, each with its text. *)
Definition writes (t : list event) : list (string * string) :=
  flat_map (fun e => match e with EvWrite p text => [(p, text)] | _ => [] end)
           t.

(** ** The console summary *)

(** [s[:n]] *)
Definition str_prefix (n : nat) (s : string) : string := substring 0 n s.

(** [f"{s:<w}"] *)
Definition ljust (s : string) (w : nat) : string :=
  s ++ Str.repeat " " (w - String.length s).

(** [f"{s:>w}"], also for an integer [s]. *)
Definition rjust (s : string) (w : nat) : string :=
  Str.repeat " " (w - String.length s) ++ s.

(** Line 196: names longer than 50 characters are cut. *)
Definition display_name (client_name : string) : string :=
  if (50 <? String.length client_name)%nat
  then str_prefix 47 client_name ++ "..."
  else client_name.

(** The f-string of lines 197 and 200. *)
Definition table_row (name : string) (docs pages : Z) : string :=
  ljust name 50 ++ " " ++ rjust (Str.of_int docs) 8
  ++ " " ++ rjust (Str.of_int pages) 8.

Definition print_summary (results : Report) : M unit :=
  print (nl ++ Str.repeat "=" 80) ;;
  print "SUMMARY" ;;
  print (Str.repeat "=" 80) ;;
  let summary := summary results in
  let clients := clients results in
  print (nl ++ "Total Client Folders: "
         ++ Str.of_int (Z.of_nat (List.length clients))) ;;
  print (nl ++ "Document Counts:") ;;
  print ("  PDF Files:  " ++ Str.of_int (Summary.total_pdf_files summary)) ;;
  print ("  Word Files: " ++ Str.of_int (Summary.total_docx_files summary)) ;;
  print ("  Total:      " ++ Str.of_int (Summary.total_documents summary)) ;;
  print (nl ++ "Page Counts:") ;;
  print ("  PDF Pages:  " ++ Str.of_int (Summary.total_pdf_pages summary)) ;;
  print ("  Word Pages: " ++ Str.of_int (Summary.total_docx_pages summary)
         ++ " (estimated)") ;;
  print ("  Total:      " ++ Str.of_int (Summary.total_pages summary)) ;;
  print (nl ++ Str.repeat "-" 80) ;;
  print (ljust "Client Folder" 50 ++ " " ++ rjust "Docs" 8
         ++ " " ++ rjust "Pages" 8) ;;
  print (Str.repeat "-" 80) ;;
  for_each (sorted fst clients)
           (fun kv _ =>
              print (table_row (display_name (fst kv))
                               (total_documents (snd kv))
                               (total_pages (snd kv))))
           tt ;;
  print (Str.repeat "-" 80) ;;
  print (table_row "TOTAL" (Summary.total_documents summary)
                   (Summary.total_pages summary)) ;;
  print (Str.repeat "=" 80).

(** A name of 60 characters. *)
Definition long_name : string := Str.repeat "Holdings-" 6 ++ "Ltd..." .

(** ** The JSON report *)

(** The values that [json.dump] is given: integers, strings, lists and
    dictionaries with string keys. *)
#[warnings="-register-all"] Inductive json : Type :=
| JInt (n : Z)
| JStr (s : string)
| JList (l : list json)
| JDict (d : list (string * json)).

Definition backslash : ascii := Eval cbv in ascii_of_nat 92.

Definition hex_digit (n : nat) : ascii :=
  if (n <? 10)%nat then ascii_of_nat (48 + n) else ascii_of_nat (87 + n).

(** The replacement of one character inside a JSON string, with
    [ensure_ascii=False]: the double quote, the backslash and the control
    characters are escaped, every other character is kept. *)
Definition json_escape_char (c : ascii) : string :=
  let n := nat_of_ascii c in
  if Ascii.eqb c Str.dquote then String backslash (String Str.dquote "")
  else if Ascii.eqb c backslash then String backslash (String backslash "")
  else if (n =? 8)%nat then String backslash "b"
  else if (n =? 12)%nat then String backslash "f"
  else if (n =? 10)%nat then String backslash "n"
  else if (n =? 13)%nat then String backslash "r"
  else if (n =? 9)%nat then String backslash "t"
  else if (n <? 32)%nat then
    String backslash
           ("u00" ++ String (hex_digit (n / 16))
                            (String (hex_digit (n mod 16)) ""))
  else String c "".

Fixpoint json_escape (s : string) : string :=
  match s with
  | EmptyString => EmptyString
  | String c r => json_escape_char c ++ json_escape r
  end.

(** A string as JSON text. *)
Definition json_quote (s : string) : string :=
  String Str.dquote (json_escape s ++ String Str.dquote "").

Definition json_indent (level : nat) : string := Str.repeat "  " level.

(** [json.dumps(v, indent=2, ensure_ascii=False)], at a nesting level. *)
Fixpoint json_encode (level : nat) (v : json) : string :=
  match v with
  | JInt n => Str.of_int n
  | JStr s => json_quote s
  | JList [] => "[]"
  | JList l =>
      "[" ++ nl ++ json_indent (S level)
      ++ String.concat ("," ++ nl ++ json_indent (S level))
                       (map (json_encode (S level)) l)
      ++ nl ++ json_indent level ++ "]"
  | JDict [] => "{}"
  | JDict d =>
      "{" ++ nl ++ json_indent (S level)
      ++ String.concat ("," ++ nl ++ json_indent (S level))
                       (map (fun kv : string * json =>
                               let (k, x) := kv in
                               json_quote k ++ ": " ++ json_encode (S level) x)
                            d)
      ++ nl ++ json_indent level ++ "}"
  end.

Definition json_dumps (v : json) : string := json_encode 0 v.

(** The dictionaries of the report, as [json.dump] sees them. *)
Definition doc_json (d : doc_record) : json :=
  JDict [("file", JStr (doc_file d)); ("pages", JInt (doc_pages d))].

Definition client_json (cs : client_stats) : json :=
  JDict [("pdf_files", JList (map doc_json (pdf_files cs)));
         ("docx_files", JList (map doc_json (docx_files cs)));
         ("pdf_count", JInt (pdf_count cs));
         ("docx_count", JInt (docx_count cs));
         ("pdf_pages", JInt (pdf_pages cs));
         ("docx_pages", JInt (docx_pages cs));
         ("total_documents", JInt (total_documents cs));
         ("total_pages", JInt (total_pages cs))].

Definition summary_json (s : Summary.t) : json :=
  JDict [("total_pdf_files", JInt (Summary.total_pdf_files s));
         ("total_docx_files", JInt (Summary.total_docx_files s));
         ("total_pdf_pages", JInt (Summary.total_pdf_pages s));
         ("total_docx_pages", JInt (Summary.total_docx_pages s));
         ("total_documents", JInt (Summary.total_documents s));
         ("total_pages", JInt (Summary.total_pages s))].

Definition report_json (r : Report) : json :=
  JDict [("clients",
          JDict (map (fun kv => (fst kv, client_json (snd kv))) (clients r)));
         ("summary", summary_json (summary r));
         ("analyzed_path", JStr (analyzed_path r));
         ("analyzed_at", JStr (analyzed_at r))].

(** The text that [save_detailed_report] writes. *)
Definition json_text (results : Report) : string :=
  json_dumps (report_json results).

Definition save_detailed_report (results : Report) (output_path : string)
  : M unit :=
  emit (EvWrite output_path (json_text results)) ;;
  print (nl ++ "Detailed report saved to: " ++ output_path).

(** ** The main block *)

Definition is_FileNotFoundError (e : exn) : bool :=
  match e with FileNotFoundError _ => true | _ => false end.

(** The [try] statement of the main block (lines 242-259); the output
    directory exists when it is entered. *)
Definition main (g : globals) (target_path : path) (st : path_state)
           (now : string) (json_output csv_output : string) : M unit :=
  try_except
    (results <- analyze_folder g target_path st now ;;
     print_summary results ;;
     save_detailed_report results json_output ;;
     save_csv_report results csv_output ;;
     print (nl ++ "Analysis complete!"))
    any_Exception
    (fun e =>
       if is_FileNotFoundError e then print ("Error: " ++ exn_msg e)
       else
         print ("An error occurred: " ++ exn_msg e) ;;
         raise e).

(** Reading a JSON string back: the text up to the closing double quote,
    with its escapes undone, and what follows. *)
Definition hex_value (c : ascii) : option nat :=
  let n := nat_of_ascii c in
  if ((48 <=? n) && (n <=? 57))%nat then Some (n - 48)%nat
  else if ((97 <=? n) && (n <=? 102))%nat then Some (n - 87)%nat
  else if ((65 <=? n) && (n <=? 70))%nat then Some (n - 55)%nat
  else None.

Definition hex4 (a b c d : ascii) : option nat :=
  match hex_value a, hex_value b, hex_value c, hex_value d with
  | Some x, Some y, Some z, Some w =>
      Some (((x * 16 + y) * 16 + z) * 16 + w)%nat
  | _, _, _, _ => None
  end.

Definition unescape (e : ascii) : option ascii :=
  if Ascii.eqb e Str.dquote then Some Str.dquote
  else if Ascii.eqb e backslash then Some backslash
  else if Ascii.eqb e "/" then Some "/"%char
  else if Ascii.eqb e "b" then Some (ascii_of_nat 8)
  else if Ascii.eqb e "f" then Some (ascii_of_nat 12)
  else if Ascii.eqb e "n" then Some (ascii_of_nat 10)
  else if Ascii.eqb e "r" then Some (ascii_of_nat 13)
  else if Ascii.eqb e "t" then Some (ascii_of_nat 9)
  else None.

Fixpoint read_json_chars (s : string) (acc : string)
  : option (string * string) :=
  match s with
  | EmptyString => None
  | String c r =>
      if Ascii.eqb c Str.dquote then Some (acc, r)
      else if Ascii.eqb c backslash then
        match r with
        | EmptyString => None
        | String e r' =>
            if Ascii.eqb e "u" then
              match r' with
              | String h1 (String h2 (String h3 (String h4 r''))) =>
                  match hex4 h1 h2 h3 h4 with
                  | Some n =>
                      if (n <? 256)%nat
                      then read_json_chars r'' (push acc (ascii_of_nat n))
                      else None
                  | None => None
                  end
              | _ => None
              end
            else
              match unescape e with
              | Some c' => read_json_chars r' (push acc c')
              | None => None
              end
        end
      else if (nat_of_ascii c <? 32)%nat then None
      else read_json_chars r (push acc c)
  end.

Definition read_json_string (s : string) : option (string * string) :=
  match s with
  | EmptyString => None
  | String c r =>
      if Ascii.eqb c Str.dquote then read_json_chars r "" else None
  end.

(** * Properties *)

(** ** Reasoning about computations *)

Section Computations.

Context {A B : Type}.

Lemma outcome_bind_ok (m : M A) (k : A -> M B) (a : A) :
  outcome m = inr a -> outcome (bind m k) = outcome (k a).
Proof.
  destruct m as [t [e | a']]; simpl; intros H; [discriminate |].
  injection H as ->. unfold outcome. destruct (k a); reflexivity.
Qed.

Lemma outcome_bind_inv (m : M A) (k : A -> M B) (b : B) :
  outcome (bind m k) = inr b ->
  exists a, outcome m = inr a /\ outcome (k a) = inr b.
Proof.
  destruct m as [t [e | a]]; simpl; intros H; [discriminate |].
  exists a. split; [reflexivity |].
  unfold outcome in *. destruct (k a); exact H.
Qed.

Lemma trace_bind_ok (m : M A) (k : A -> M B) (a : A) :
  outcome m = inr a -> trace (bind m k) = (trace m ++ trace (k a))%list.
Proof.
  destruct m as [t [e | a']]; simpl; intros H; [discriminate |].
  injection H as ->. unfold trace. destruct (k a); reflexivity.
Qed.

Lemma trace_bind_Forall (P : event -> Prop) (m : M A) (k : A -> M B) :
  Forall P (trace m) -> (forall a, Forall P (trace (k a))) ->
  Forall P (trace (bind m k)).
Proof.
  intros Hm Hk. destruct m as [t [e | a]]; simpl in *; [exact Hm |].
  specialize (Hk a). unfold trace in Hk. destruct (k a) as [t' r].
  simpl in *. apply Forall_app. split; assumption.
Qed.

End Computations.

Lemma bind_ret {A B} (a : A) (k : A -> M B) : bind (ret a) k = k a.
Proof. unfold bind, ret. destruct (k a). reflexivity. Qed.

Lemma bind_emit {B} (e : event) (k : unit -> M B) :
  bind (emit e) k = (e :: trace (k tt), outcome (k tt)).
Proof. unfold bind, emit, trace, outcome. destruct (k tt). reflexivity. Qed.

Lemma outcome_bind_print {B} (line : string) (k : unit -> M B) :
  outcome (bind (print line) k) = outcome (k tt).
Proof. unfold print. rewrite bind_emit. reflexivity. Qed.


Lemma for_each_trace_Forall {A S} (P : event -> Prop) (l : list A)
      (body : A -> S -> M S) :
  (forall a s, Forall P (trace (body a s))) ->
  forall s, Forall P (trace (for_each l body s)).
Proof.
  intros Hbody. induction l as [| a l IH]; intros s; simpl.
  - constructor.
  - apply trace_bind_Forall; [apply Hbody | exact IH].
Qed.

(** ** The page estimate of a Word document *)

Lemma estimated_pages_below_6000 (n : Z) : n < 6000 -> estimated_pages n = 1.
Proof.
  intros H. unfold estimated_pages.
  destruct (0 <? n) eqn:E; [| reflexivity].
  apply Z.ltb_lt in E.
  assert (n / 3000 < 2) by (apply Z.div_lt_upper_bound; lia).
  assert (0 <= n / 3000) by (apply Z.div_pos; lia).
  lia.
Qed.

Lemma count_docx_pages_parsed (g : globals) (file_path : string) (f : file)
      (paragraphs : list string) :
  DOCX_SUPPORT g = true -> as_docx f = inr paragraphs ->
  count_docx_pages g file_path f
  = ([EvDocument file_path], inr (estimated_pages (total_chars paragraphs))).
Proof.
  intros Hg Hf. unfold count_docx_pages, Document. rewrite Hg, Hf.
  reflexivity.
Qed.

(** C3. For a .docx file whose backend is available and whose parse
    succeeds, the estimate is [max(1, total_chars // 3000)] when
    [total_chars > 0] and 1 otherwise, [total_chars] being the summed length
    of the paragraph texts: no characters give 1 page, 3000 characters 1
    page, 3001 to 5999 characters 1 page, 6000 characters 2 pages. *)
Theorem docx_page_estimate :
  forall (g : globals) (file_path : string) (f : file)
         (paragraphs : list string),
    DOCX_SUPPORT g = true ->
    as_docx f = inr paragraphs ->
    let n := total_chars paragraphs in
    exists pages,
      outcome (count_docx_pages g file_path f) = inr pages
      /\ (0 < n -> pages = Z.max 1 (n / 3000))
      /\ (n = 0 -> pages = 1)
      /\ (n = 3000 -> pages = 1)
      /\ (3001 <= n <= 5999 -> pages = 1)
      /\ (n = 6000 -> pages = 2).
Proof.
  intros g file_path f paragraphs Hg Hf n.
  exists (estimated_pages n). split.
  - rewrite (count_docx_pages_parsed g file_path f paragraphs Hg Hf).
    reflexivity.
  - repeat split; intros H.
    + unfold estimated_pages. apply Z.ltb_lt in H. rewrite H. reflexivity.
    + rewrite H. reflexivity.
    + rewrite H. reflexivity.
    + apply estimated_pages_below_6000. lia.
    + rewrite H. reflexivity.
Qed.

(** ** Suffix tests *)

Lemma str_last_app (s1 s2 : string) (c d : ascii) :
  str_last (s1 ++ String c s2) d = str_last s2 c.
Proof.
  revert d. induction s1 as [| a s1 IH]; intros d; simpl; [reflexivity |].
  apply IH.
Qed.

Lemma str_length_app (s1 s2 : string) :
  String.length (s1 ++ s2) = (String.length s1 + String.length s2)%nat.
Proof.
  induction s1 as [| c s1 IH]; simpl; [reflexivity | now rewrite IH].
Qed.

Lemma str_app_assoc (s1 s2 s3 : string) : (s1 ++ s2) ++ s3 = s1 ++ s2 ++ s3.
Proof.
  induction s1 as [| c s1 IH]; simpl; [reflexivity | now rewrite IH].
Qed.

Lemma substring_all (s : string) : substring 0 (String.length s) s = s.
Proof.
  induction s as [| c s IH]; simpl; [reflexivity | now rewrite IH].
Qed.

Lemma substring_split (s : string) (n : nat) :
  s = substring 0 n s ++ substring n (String.length s - n) s.
Proof.
  revert n. induction s as [| c s IH]; intros n.
  - destruct n; reflexivity.
  - destruct n as [| n]; simpl.
    + now rewrite substring_all.
    + now rewrite <- IH.
Qed.

Lemma substring_after (pre s : string) (n : nat) :
  substring (String.length pre) n (pre ++ s) = substring 0 n s.
Proof.
  induction pre as [| c pre IH]; simpl; [reflexivity | exact IH].
Qed.

Lemma endswith_app (pre suffix : string) :
  Str.endswith (pre ++ suffix) suffix = true.
Proof.
  unfold Str.endswith. rewrite str_length_app.
  apply andb_true_intro. split.
  - apply Nat.leb_le. lia.
  - replace (String.length pre + String.length suffix - String.length suffix)%nat
      with (String.length pre) by lia.
    rewrite substring_after, substring_all. apply String.eqb_refl.
Qed.

Lemma endswith_inv (s suffix : string) :
  Str.endswith s suffix = true -> exists pre, s = pre ++ suffix.
Proof.
  unfold Str.endswith. intros H. apply andb_prop in H. destruct H as [Hl He].
  apply Nat.leb_le in Hl. apply String.eqb_eq in He.
  exists (substring 0 (String.length s - String.length suffix) s).
  etransitivity;
    [apply (substring_split s (String.length s - String.length suffix)) |].
  f_equal.
  replace (String.length s - (String.length s - String.length suffix))%nat
    with (String.length suffix) by lia.
  exact He.
Qed.

Lemma endswith_last (s pre : string) (c d : ascii) :
  Str.endswith s (pre ++ String c EmptyString) = true -> str_last s d = c.
Proof.
  intros H. apply endswith_inv in H. destruct H as [p ->].
  rewrite <- (str_app_assoc p pre). apply (str_last_app (p ++ pre)).
Qed.

Lemma doc_not_docx (name : string) :
  has_ext name ".doc" = true -> has_ext name ".docx" = false.
Proof.
  unfold has_ext. intros H.
  destruct (Str.endswith (Str.lower name) ".docx") eqn:E; [| reflexivity].
  apply (endswith_last _ ".do" "c"%char "0"%char) in H.
  apply (endswith_last _ ".doc" "x"%char "0"%char) in E.
  rewrite H in E. discriminate.
Qed.

Lemma doc_not_pdf (name : string) :
  has_ext name ".doc" = true -> has_ext name ".pdf" = false.
Proof.
  unfold has_ext. intros H.
  destruct (Str.endswith (Str.lower name) ".pdf") eqn:E; [| reflexivity].
  apply (endswith_last _ ".do" "c"%char "0"%char) in H.
  apply (endswith_last _ ".pd" "f"%char "0"%char) in E.
  rewrite H in E. discriminate.
Qed.

(** ** Paths below a client folder *)

Lemma relative_to_below (other q : path) :
  relative_to (other ++ q)%list other = ret q.
Proof.
  induction other as [| o other IH]; simpl.
  - destruct q; reflexivity.
  - rewrite String.eqb_refl. exact IH.
Qed.

(** Every directory that [os.walk] yields lies at or below its top. *)
Lemma os_walk_below (n : node) :
  forall top root dirs files,
    In (root, dirs, files) (os_walk top n) -> exists q, root = (top ++ q)%list.
Proof.
  induction n as [f | name entries IH] using node_rect';
    intros top root dirs files Hin; simpl in Hin.
  - contradiction.
  - destruct Hin as [Heq | Hin].
    + injection Heq as <- _ _. exists []. now rewrite app_nil_r.
    + apply in_flat_map in Hin. destruct Hin as (e & He & Hin).
      rewrite Forall_forall in IH.
      destruct (IH e He _ _ _ _ Hin) as [q ->].
      exists (node_name e :: q). now rewrite <- app_assoc.
Qed.

(** ** What the estimators return *)

Lemma count_pdf_pages_outcome (g : globals) (file_path : string) (f : file) :
  outcome (count_pdf_pages g file_path f) = inr (pdf_pages_of g f).
Proof.
  unfold count_pdf_pages, pdf_pages_of, PdfReader.
  destruct (PDF_SUPPORT g); [| reflexivity].
  destruct (as_pdf f); reflexivity.
Qed.

Lemma count_docx_pages_outcome (g : globals) (file_path : string) (f : file) :
  outcome (count_docx_pages g file_path f) = inr (docx_pages_of g f).
Proof.
  unfold count_docx_pages, docx_pages_of, Document.
  destruct (DOCX_SUPPORT g); [| reflexivity].
  destruct (as_docx f); reflexivity.
Qed.

Lemma file_body_outcome (g : globals) (client_folder q : path) (f : file)
      (cs : client_stats) :
  outcome (file_body g client_folder (client_folder ++ q)%list f cs)
  = inr (file_step g (path_str (q ++ [file_name f])%list) f cs).
Proof.
  unfold file_body, file_step, has_ext.
  rewrite <- app_assoc, relative_to_below, bind_ret.
  destruct (Str.endswith (Str.lower (file_name f)) ".pdf").
  - rewrite (outcome_bind_ok _ _ _ (count_pdf_pages_outcome g _ f)).
    reflexivity.
  - destruct (Str.endswith (Str.lower (file_name f)) ".docx").
    + simpl orb. cbv iota.
      rewrite (outcome_bind_ok _ _ _ (count_docx_pages_outcome g _ f)).
      reflexivity.
    + destruct (Str.endswith (Str.lower (file_name f)) ".doc"); reflexivity.
Qed.


Lemma filter_m_ret {A} (p : A -> bool) (l : list A) :
  filter_m (fun a => ret (p a)) l = ret (filter p l).
Proof.
  induction l as [| a l IH]; cbn [filter_m filter]; [reflexivity |].
  rewrite bind_ret, IH. destruct (p a); [now rewrite bind_ret | reflexivity].
Qed.

(** On a root directory that can be read, the scan goes on with its
    subdirectories. *)
Lemma analyze_folder_readable (g : globals) (root_path : path)
      (name : string) (entries : list node) (now : string) :
  analyze_folder g root_path (Present (Dir name entries)) now
  = scan_client_folders g root_path (filter is_dir entries) now.
Proof.
  unfold analyze_folder. cbn [path_exists negb iterdir entry_is_dir].
  rewrite bind_ret, filter_m_ret, bind_ret. reflexivity.
Qed.

Lemma analyze_folder_dir (g : globals) (root_path : path) (name : string)
      (entries : list node) (now : string) (r : Report) :
  outcome (analyze_folder g root_path (Present (Dir name entries)) now) = inr r
  <-> exists acc,
      outcome (for_each (sorted node_name (filter is_dir entries))
                        (client_body g root_path) ([], empty_total_stats))
      = inr acc
      /\ r = mkReport (fst acc) (snd acc) (path_str root_path) now.
Proof.
  rewrite analyze_folder_readable. unfold scan_client_folders.
  rewrite !outcome_bind_print.
  split.
  - intros H. apply outcome_bind_inv in H. destruct H as (acc & H1 & H2).
    exists acc. split; [exact H1 |]. now injection H2.
  - intros (acc & H1 & ->). rewrite (outcome_bind_ok _ _ _ H1). reflexivity.
Qed.

(** ** The scan as a fold *)

Lemma for_each_fold {A S} (l : list A) (body : A -> S -> M S)
      (step : S -> A -> S) :
  (forall a s, In a l -> outcome (body a s) = inr (step s a)) ->
  forall s, outcome (for_each l body s) = inr (fold_left step l s).
Proof.
  induction l as [| a l IH]; intros Hbody s; simpl.
  - reflexivity.
  - rewrite (outcome_bind_ok _ _ _ (Hbody a s (or_introl eq_refl))).
    apply IH. intros b s0 Hb. apply Hbody. right. exact Hb.
Qed.

Lemma fold_left_inv {A S} (I : S -> Prop) (step : S -> A -> S) (l : list A) :
  (forall s a, In a l -> I s -> I (step s a)) ->
  forall s, I s -> I (fold_left step l s).
Proof.
  induction l as [| a l IH]; intros Hstep s Hs; simpl; [exact Hs |].
  apply IH.
  - intros s0 b Hb. apply Hstep. right. exact Hb.
  - apply Hstep; [left; reflexivity | exact Hs].
Qed.

Lemma rel_path_below (client_folder q : path) (name : string) :
  rel_path client_folder (client_folder ++ q)%list name
  = path_str (q ++ [name])%list.
Proof.
  unfold rel_path. rewrite skipn_app, skipn_all, Nat.sub_diag. reflexivity.
Qed.

Lemma walk_body_outcome (g : globals) (client_folder : path) (n : node)
      (entry : path * list string * list file) (cs : client_stats) :
  In entry (os_walk client_folder n) ->
  outcome (walk_body g client_folder entry cs)
  = inr (walk_step g client_folder cs entry).
Proof.
  destruct entry as [[root dirs] files]. intros Hin.
  destruct (os_walk_below n _ _ _ _ Hin) as [q ->].
  unfold walk_body, walk_step. apply for_each_fold.
  intros f s _. rewrite file_body_outcome. unfold files_step.
  now rewrite rel_path_below.
Qed.

Lemma client_scan_outcome (g : globals) (client_folder : path) (n : node) :
  outcome (client_scan g client_folder n)
  = inr (client_stats_of g client_folder n).
Proof.
  unfold client_scan, client_stats_of.
  rewrite (outcome_bind_ok _ _ _
             (for_each_fold _ _ (walk_step g client_folder)
                (fun e s He => walk_body_outcome g client_folder n e s He)
                empty_client_stats)).
  reflexivity.
Qed.

Lemma client_body_outcome (g : globals) (root_path : path) (n : node)
      (acc : dict client_stats * Summary.t) :
  outcome (client_body g root_path n acc) = inr (scan_step g root_path acc n).
Proof.
  destruct acc as [results totals]. unfold client_body.
  rewrite outcome_bind_print.
  rewrite (outcome_bind_ok _ _ _ (client_scan_outcome g _ n)).
  rewrite !outcome_bind_print. reflexivity.
Qed.

(** On a directory the scan returns the report computed by the folds. *)
Lemma analyze_folder_outcome (g : globals) (root_path : path) (name : string)
      (entries : list node) (now : string) :
  outcome (analyze_folder g root_path (Present (Dir name entries)) now)
  = inr (report_of g root_path entries now).
Proof.
  apply analyze_folder_dir. eexists. split.
  - apply for_each_fold. intros n acc _. apply client_body_outcome.
  - reflexivity.
Qed.

(** A root whose entries cannot be examined is scanned all the same when it
    has no entry. *)
Lemma analyze_folder_unsearchable_empty (g : globals) (root_path : path)
      (name : string) (now : string) :
  analyze_folder g root_path (Unsearchable name []) now
  = analyze_folder g root_path (Present (Dir name [])) now.
Proof.
  unfold analyze_folder. cbn [path_exists negb iterdir filter_m].
  rewrite !bind_ret. reflexivity.
Qed.


Lemma completed_report (g : globals) (root_path : path) (st : path_state)
      (now : string) (r : Report) :
  outcome (analyze_folder g root_path st now) = inr r ->
  can_be_scanned st = true
  /\ exists entries, r = report_of g root_path entries now.
Proof.
  destruct st as [| [f | name entries] | name | name [| e entries]];
    try discriminate.
  - rewrite analyze_folder_outcome. intros H. injection H as <-.
    split; [reflexivity | now exists entries].
  - rewrite analyze_folder_unsearchable_empty, analyze_folder_outcome.
    intros H. injection H as <-. split; [reflexivity | now exists []].
Qed.

(** ** The scan root *)



(** ** Files that cannot be counted *)

Lemma fold_left_reaches {A S} (I : S -> Prop) (step : S -> A -> S)
      (l : list A) (a : A) :
  In a l ->
  (forall s, I (step s a)) ->
  (forall s b, In b l -> I s -> I (step s b)) ->
  forall s, I (fold_left step l s).
Proof.
  intros Hin Ha Hkeep s.
  destruct (in_split _ _ Hin) as (l1 & l2 & ->).
  rewrite fold_left_app. simpl.
  apply fold_left_inv; [| apply Ha].
  intros s0 b Hb. apply Hkeep. apply in_or_app. right. right. exact Hb.
Qed.


Lemma file_step_keeps_docx (g : globals) (rel : string) (f : file)
      (cs : client_stats) (d : doc_record) :
  In d (docx_files cs) -> In d (docx_files (file_step g rel f cs)).
Proof.
  intros H. unfold file_step.
  destruct (has_ext (file_name f) ".pdf"); simpl; [exact H |].
  destruct (has_ext (file_name f) ".docx" || has_ext (file_name f) ".doc");
    simpl; [| exact H].
  apply in_or_app. left. exact H.
Qed.

(** A record that one file of a walked directory adds to the statistics is
    in the statistics of the client at the end of its scan. *)
Lemma recorded_by_client_scan (g : globals) (client_folder : path) (n : node)
      (root : path) (dirs : list string) (files : list file) (f : file)
      (I : client_stats -> Prop) :
  In (root, dirs, files) (os_walk client_folder n) ->
  In f files ->
  (forall cs, I (files_step g client_folder root cs f)) ->
  (forall rel f' cs, I cs -> I (file_step g rel f' cs)) ->
  (forall cs, I cs -> I (set_client_totals cs)) ->
  I (client_stats_of g client_folder n).
Proof.
  intros Hentry Hf Hrec Hkeep Htot. unfold client_stats_of. apply Htot.
  apply (fold_left_reaches I _ _ _ Hentry).
  - intros s. simpl. apply (fold_left_reaches I _ _ _ Hf).
    + exact Hrec.
    + intros s0 b _. apply Hkeep.
  - intros s [[root' dirs'] files'] _ Hs. simpl.
    apply fold_left_inv; [| exact Hs].
    intros s0 b _. apply Hkeep.
Qed.



(** ** Legacy .doc files *)

Lemma file_body_doc (g : globals) (client_folder q : path) (f : file)
      (cs : client_stats) :
  has_ext (file_name f) ".doc" = true ->
  file_body g client_folder (client_folder ++ q)%list f cs
  = ([doc_note (file_name f)],
     inr (record_docx cs (path_str (q ++ [file_name f])%list) 0)).
Proof.
  intros Hdoc. unfold file_body.
  rewrite <- app_assoc, relative_to_below, bind_ret.
  pose proof (doc_not_pdf _ Hdoc) as Hpdf.
  pose proof (doc_not_docx _ Hdoc) as Hdocx.
  unfold has_ext in *. rewrite Hpdf, Hdocx, Hdoc. reflexivity.
Qed.

(** C7. A file whose name ends, whatever the case, in .doc is recorded with
    0 pages, whatever the file holds and whichever backends are available;
    processing it raises nothing, calls no backend, and prints one line, a
    note and not a warning. *)
Theorem legacy_doc_has_zero_pages :
  forall (g : globals) (client_folder q : path) (f : file)
         (cs : client_stats),
    has_ext (file_name f) ".doc" = true ->
    has_ext (file_name f) ".docx" = false
    /\ exists cs',
        file_body g client_folder (client_folder ++ q)%list f cs
        = ([EvPrint ("  Note: .doc file skipped for page count: "
                     ++ file_name f)], inr cs')
        /\ docx_files cs'
           = (docx_files cs ++ [mkDoc (path_str (q ++ [file_name f])%list) 0])%list
        /\ docx_pages cs' = docx_pages cs
        /\ pdf_files cs' = pdf_files cs
        /\ pdf_pages cs' = pdf_pages cs.
Proof.
  intros g client_folder q f cs Hdoc. split; [now apply doc_not_docx |].
  eexists. split; [apply (file_body_doc g client_folder q f cs Hdoc) |].
  simpl. repeat split. apply Z.add_0_r.
Qed.

(** ** Backend availability *)

Lemma relative_to_trace (p other : path) : trace (relative_to p other) = [].
Proof.
  revert p. induction other as [| o other IH]; intros [| x p]; simpl;
    try reflexivity.
  destruct (String.eqb o x); [apply IH | reflexivity].
Qed.

Lemma iterdir_trace (p : path) (st : path_state) : trace (iterdir p st) = [].
Proof. destruct st as [| [f | name entries] | name | name entries]; reflexivity. Qed.

(** Examining the entries of the root prints nothing. *)
Lemma root_listing_trace (p : path) (st : path_state) (l : list node) :
  trace (filter_m (entry_is_dir p st) l) = [].
Proof.
  destruct st as [| n | name | name entries].
  - cbn [entry_is_dir]. now rewrite filter_m_ret.
  - cbn [entry_is_dir]. now rewrite filter_m_ret.
  - cbn [entry_is_dir]. now rewrite filter_m_ret.
  - destruct l; reflexivity.
Qed.

Section RunTrace.

Variable g : globals.
Variable P : event -> Prop.
Hypothesis P_print : forall line, P (EvPrint line).
Hypothesis P_pdf :
  forall file_path f, Forall P (trace (count_pdf_pages g file_path f)).
Hypothesis P_docx :
  forall file_path f, Forall P (trace (count_docx_pages g file_path f)).

Lemma print_trace (line : string) : Forall P (trace (print line)).
Proof. repeat constructor. apply P_print. Qed.

Lemma ret_trace {A} (a : A) : Forall P (trace (ret a)).
Proof. constructor. Qed.

Ltac step_trace :=
  repeat first
         [ apply ret_trace
         | apply print_trace
         | apply P_pdf
         | apply P_docx
         | apply trace_bind_Forall; [| intros ? ] ].

Lemma file_body_trace client_folder root f cs :
  Forall P (trace (file_body g client_folder root f cs)).
Proof.
  unfold file_body. apply trace_bind_Forall.
  - rewrite relative_to_trace. constructor.
  - intros rel.
    destruct (Str.endswith (Str.lower (file_name f)) ".pdf");
      [step_trace |].
    destruct (Str.endswith (Str.lower (file_name f)) ".docx"
              || Str.endswith (Str.lower (file_name f)) ".doc");
      [| step_trace].
    destruct (Str.endswith (Str.lower (file_name f)) ".docx"); step_trace.
Qed.

Lemma client_scan_trace client_folder n :
  Forall P (trace (client_scan g client_folder n)).
Proof.
  unfold client_scan. apply trace_bind_Forall; [| intros; apply ret_trace].
  apply for_each_trace_Forall. intros [[root dirs] files] cs.
  apply for_each_trace_Forall. intros f s. apply file_body_trace.
Qed.

Lemma analyze_folder_trace root_path st now :
  Forall P (trace (analyze_folder g root_path st now)).
Proof.
  unfold analyze_folder. destruct (negb (path_exists st)); [constructor |].
  apply trace_bind_Forall; [rewrite iterdir_trace; constructor |].
  intros entries.
  apply trace_bind_Forall; [rewrite root_listing_trace; constructor |].
  intros client_folders. step_trace.
  apply for_each_trace_Forall. intros n [results totals].
  unfold client_body.
  repeat first
         [ apply ret_trace
         | apply print_trace
         | apply client_scan_trace
         | apply trace_bind_Forall; [| intros ? ] ].
Qed.

End RunTrace.

Lemma count_pdf_pages_trace (g : globals) (file_path : string) (f : file) :
  trace (count_pdf_pages g file_path f)
  = if PDF_SUPPORT g
    then EvPdfReader file_path
         :: match as_pdf f with
            | inl e => [EvPrint ("  Warning: Could not read PDF '" ++ file_path
                                 ++ "': " ++ exn_msg e)]
            | inr _ => []
            end
    else [].
Proof.
  unfold count_pdf_pages, PdfReader.
  destruct (PDF_SUPPORT g); [| reflexivity].
  destruct (as_pdf f); reflexivity.
Qed.

Lemma count_docx_pages_trace (g : globals) (file_path : string) (f : file) :
  trace (count_docx_pages g file_path f)
  = if DOCX_SUPPORT g
    then EvDocument file_path
         :: match as_docx f with
            | inl e => [EvPrint ("  Warning: Could not read DOCX '" ++ file_path
                                 ++ "': " ++ exn_msg e)]
            | inr _ => []
            end
    else [].
Proof.
  unfold count_docx_pages, Document.
  destruct (DOCX_SUPPORT g); [| reflexivity].
  destruct (as_docx f); reflexivity.
Qed.

Lemma module_init_run (installed : string -> bool) :
  exists t,
    module_init installed
    = (t, inr {| PDF_SUPPORT := installed "pypdf" || installed "PyPDF2";
                 DOCX_SUPPORT := installed "docx" |})
    /\ NoDup (filter is_import t).
Proof.
  unfold module_init, import_from.
  destruct (installed "pypdf"), (installed "PyPDF2"), (installed "docx");
    simpl; eexists; (split; [reflexivity |]); simpl;
    repeat (constructor; [simpl; intuition discriminate |]); constructor.
Qed.

(** C6. The availability of each backend is settled once, when the module is
    loaded: each import is attempted at most once there, and gives a boolean
    per format. A later run of the scan attempts no import; with a format's
    flag false, the estimator of that format returns 0 at once, with no event
    at all, and the whole scan never calls that backend. *)
Theorem backend_availability_settled_at_startup :
  forall (installed : string -> bool),
    (exists g,
        outcome (module_init installed) = inr g
        /\ PDF_SUPPORT g = installed "pypdf" || installed "PyPDF2"
        /\ DOCX_SUPPORT g = installed "docx"
        /\ NoDup (filter is_import (trace (module_init installed))))
    /\ forall (g : globals),
      (PDF_SUPPORT g = false ->
       forall file_path f, count_pdf_pages g file_path f = ([], inr 0))
      /\ (DOCX_SUPPORT g = false ->
          forall file_path f, count_docx_pages g file_path f = ([], inr 0))
      /\ forall root_path st now,
          let t := trace (analyze_folder g root_path st now) in
          Forall (fun e => is_import e = false) t
          /\ (PDF_SUPPORT g = false ->
              Forall (fun e => is_pdf_open e = false) t)
          /\ (DOCX_SUPPORT g = false ->
              Forall (fun e => is_docx_open e = false) t).
Proof.
  intros installed. split.
  - destruct (module_init_run installed) as (t & Hrun & Hnodup).
    rewrite Hrun. eexists. repeat split. exact Hnodup.
  - intros g. split; [| split].
    + intros Hg file_path f. unfold count_pdf_pages. rewrite Hg. reflexivity.
    + intros Hg file_path f. unfold count_docx_pages. rewrite Hg. reflexivity.
    + intros root_path st now t. subst t. split; [| split].
      * apply analyze_folder_trace; [reflexivity | |]; intros file_path f.
        -- rewrite count_pdf_pages_trace.
           destruct (PDF_SUPPORT g), (as_pdf f); repeat constructor.
        -- rewrite count_docx_pages_trace.
           destruct (DOCX_SUPPORT g), (as_docx f); repeat constructor.
      * intros Hg.
        apply analyze_folder_trace; [reflexivity | |]; intros file_path f.
        -- rewrite count_pdf_pages_trace, Hg. constructor.
        -- rewrite count_docx_pages_trace.
           destruct (DOCX_SUPPORT g), (as_docx f); repeat constructor.
      * intros Hg.
        apply analyze_folder_trace; [reflexivity | |]; intros file_path f.
        -- rewrite count_pdf_pages_trace.
           destruct (PDF_SUPPORT g), (as_pdf f); repeat constructor.
        -- rewrite count_docx_pages_trace, Hg. constructor.
Qed.

(** ** Sorting and dictionaries *)

Lemma insert_by_perm {A} (key : A -> string) (x : A) (l : list A) :
  Permutation (insert_by key x l) (x :: l).
Proof.
  induction l as [| y l IH]; simpl; [apply Permutation_refl |].
  destruct (String.leb (key x) (key y)); [apply Permutation_refl |].
  eapply perm_trans; [apply perm_skip, IH | apply perm_swap].
Qed.

Lemma sorted_perm {A} (key : A -> string) (l : list A) :
  Permutation (sorted key l) l.
Proof.
  induction l as [| x l IH]; simpl; [constructor |].
  eapply perm_trans; [apply insert_by_perm | apply perm_skip, IH].
Qed.

Lemma insert_by_sorted {A} (key : A -> string) (x : A) (l : list A) :
  Sorted (key_le key) l -> Sorted (key_le key) (insert_by key x l).
Proof.
  induction l as [| y l IH]; intros Hs; simpl.
  - repeat constructor.
  - destruct (String.leb (key x) (key y)) eqn:E.
    + constructor; [exact Hs | constructor; exact E].
    + inversion Hs as [| ? ? Hs' Hhd]; subst.
      constructor; [apply IH; exact Hs' |].
      assert (Hyx : key_le key y x).
      { unfold key_le. destruct (String.leb_total (key x) (key y)) as [H | H];
          [rewrite H in E; discriminate | exact H]. }
      destruct l as [| z l]; simpl.
      * constructor. exact Hyx.
      * destruct (String.leb (key x) (key z)); constructor;
          [exact Hyx | now inversion Hhd].
Qed.

Lemma sorted_sorted {A} (key : A -> string) (l : list A) :
  Sorted (key_le key) (sorted key l).
Proof.
  induction l as [| x l IH]; simpl; [constructor |].
  apply insert_by_sorted. exact IH.
Qed.

Lemma dict_set_in {V} (d : dict V) (k k' : string) (v v' : V) :
  In (k, v) (dict_set d k' v') -> (k, v) = (k', v') \/ In (k, v) d.
Proof.
  induction d as [| [k0 v0] d IH]; simpl.
  - intros [H | []]. left. now symmetry.
  - destruct (String.eqb_spec k0 k') as [-> | Hne]; simpl.
    + intros [H | H]; [left; now symmetry | right; right; exact H].
    + intros [H | H]; [right; left; exact H |].
      destruct (IH H) as [H' | H']; [left; exact H' | right; right; exact H'].
Qed.

Lemma dict_set_keys {V} (d : dict V) (k k' : string) (v' : V) :
  In k (keys (dict_set d k' v')) <-> k = k' \/ In k (keys d).
Proof.
  unfold keys. induction d as [| [k0 v0] d IH]; simpl.
  - intuition.
  - destruct (String.eqb_spec k0 k') as [-> | Hne]; simpl.
    + intuition.
    + rewrite IH. intuition.
Qed.

Lemma dict_set_fresh {V} (d : dict V) (k : string) (v : V) :
  ~ In k (keys d) -> dict_set d k v = (d ++ [(k, v)])%list.
Proof.
  unfold keys. induction d as [| [k0 v0] d IH]; simpl; intros Hk.
  - reflexivity.
  - destruct (String.eqb_spec k0 k) as [-> | Hne].
    + exfalso. apply Hk. left. reflexivity.
    + rewrite IH; [reflexivity |]. intros H. apply Hk. right. exact H.
Qed.

Lemma fold_left_add (l : list Z) (a : Z) :
  fold_left Z.add l a = a + fold_left Z.add l 0.
Proof.
  revert a. induction l as [| x l IH]; intros a; simpl; [lia |].
  rewrite (IH (a + x)), (IH x). lia.
Qed.

Lemma sum_cons (x : Z) (l : list Z) : py_sum (x :: l) = x + py_sum l.
Proof. unfold py_sum. simpl. apply fold_left_add. Qed.

Lemma sum_app (l1 l2 : list Z) :
  py_sum (l1 ++ l2) = py_sum l1 + py_sum l2.
Proof.
  induction l1 as [| x l1 IH]; simpl; [reflexivity |].
  rewrite !sum_cons, IH. lia.
Qed.

Lemma sum_perm (l1 l2 : list Z) :
  Permutation l1 l2 -> py_sum l1 = py_sum l2.
Proof.
  induction 1; rewrite ?sum_cons in *; lia.
Qed.

(** ** Totals *)

Lemma client_stats_of_ok (g : globals) (client_folder : path) (n : node) :
  client_totals_ok (client_stats_of g client_folder n).
Proof. split; reflexivity. Qed.

Lemma add_to_totals_ok (s : Summary.t) (cs : client_stats) :
  summary_totals_ok s -> client_totals_ok cs ->
  summary_totals_ok (add_to_totals s cs).
Proof.
  unfold summary_totals_ok, client_totals_ok. intros [H1 H2] [H3 H4].
  simpl. lia.
Qed.

(** C1. In every report that the scan returns, each client entry and the
    summary have their total of documents equal to the PDF count plus the
    Word count, and their total of pages equal to the PDF pages plus the
    Word pages. *)
Theorem totals_are_sums_of_parts :
  forall (g : globals) (root_path : path) (st : path_state) (now : string)
         (r : Report),
    outcome (analyze_folder g root_path st now) = inr r ->
    (forall client_name cs,
        In (client_name, cs) (clients r) ->
        total_documents cs = pdf_count cs + docx_count cs
        /\ total_pages cs = pdf_pages cs + docx_pages cs)
    /\ Summary.total_documents (summary r)
       = Summary.total_pdf_files (summary r)
         + Summary.total_docx_files (summary r)
    /\ Summary.total_pages (summary r)
       = Summary.total_pdf_pages (summary r)
         + Summary.total_docx_pages (summary r).
Proof.
  intros g root_path st now r Hrun.
  destruct (completed_report _ _ _ _ _ Hrun) as (_ & entries & ->).
  unfold report_of. simpl clients. simpl summary.
  set (I := fun acc : dict client_stats * Summary.t =>
              (forall k cs, In (k, cs) (fst acc) -> client_totals_ok cs)
              /\ summary_totals_ok (snd acc)).
  assert (H : I (fold_left (scan_step g root_path)
                           (sorted node_name (filter is_dir entries))
                           ([], empty_total_stats))).
  { apply fold_left_inv.
    - intros [results totals] n _ [Hres Htot]. split; simpl.
      + intros k cs Hin. apply dict_set_in in Hin.
        destruct Hin as [Heq | Hin]; [| exact (Hres k cs Hin)].
        injection Heq as _ ->. apply client_stats_of_ok.
      + apply add_to_totals_ok; [exact Htot | apply client_stats_of_ok].
    - split; [intros k cs [] | split; reflexivity]. }
  destruct H as [Hres [Hdocs Hpages]].
  split; [exact Hres | split; assumption].
Qed.

Lemma scan_fold_sums (g : globals) (root_path : path) (l : list node) :
  NoDup (map node_name l) ->
  forall acc,
    (forall n, In n l -> ~ In (node_name n) (keys (fst acc))) ->
    summary_is_sum acc ->
    summary_is_sum (fold_left (scan_step g root_path) l acc).
Proof.
  induction l as [| n l IH]; intros Hnd acc Hfresh Hsum; simpl;
    [exact Hsum |].
  inversion Hnd as [| ? ? Hn Hnd']; subst.
  apply IH; [exact Hnd' | |].
  - intros m Hm. unfold scan_step. simpl fst. rewrite dict_set_keys.
    intros [Heq | Hin].
    + apply Hn. rewrite <- Heq. apply in_map. exact Hm.
    + apply (Hfresh m); [right; exact Hm | exact Hin].
  - destruct Hsum as [Hd Hp]. unfold summary_is_sum, scan_step. simpl.
    rewrite dict_set_fresh by (apply Hfresh; left; reflexivity).
    unfold values. rewrite !map_app, !sum_app. simpl map.
    unfold values in Hd, Hp. rewrite <- Hd, <- Hp.
    rewrite !sum_cons. unfold py_sum. simpl. split; lia.
Qed.

Lemma sorted_clients_distinct (entries : list node) :
  distinct_names entries ->
  NoDup (map node_name (sorted node_name (filter is_dir entries))).
Proof.
  intros H. eapply Permutation_NoDup; [| exact H].
  apply Permutation_map. apply Permutation_sym. apply sorted_perm.
Qed.

(** C2. In every report that the scan returns (for a root whose
    subdirectories have distinct names, as those of a directory have), the
    summary's total of documents is the sum of the clients' totals of
    documents, and likewise for pages. *)
Theorem summary_is_sum_over_clients :
  forall (g : globals) (root_path : path) (name : string)
         (entries : list node) (now : string) (r : Report),
    distinct_names entries ->
    outcome (analyze_folder g root_path (Present (Dir name entries)) now)
    = inr r ->
    Summary.total_documents (summary r)
    = py_sum (map total_documents (values (clients r)))
    /\ Summary.total_pages (summary r)
       = py_sum (map total_pages (values (clients r))).
Proof.
  intros g root_path name entries now r Hnd Hrun.
  rewrite analyze_folder_outcome in Hrun. injection Hrun as <-.
  unfold report_of. simpl clients. simpl summary.
  apply (scan_fold_sums g root_path _ (sorted_clients_distinct _ Hnd)
                        ([], empty_total_stats)).
  - intros n _ [].
  - split; reflexivity.
Qed.

(** ** Word files: .docx and .doc together *)

Lemma docx_not_pdf (name : string) :
  has_ext name ".docx" = true -> has_ext name ".pdf" = false.
Proof.
  unfold has_ext. intros H.
  destruct (Str.endswith (Str.lower name) ".pdf") eqn:E; [| reflexivity].
  apply (endswith_last _ ".doc" "x"%char "0"%char) in H.
  apply (endswith_last _ ".pd" "f"%char "0"%char) in E.
  rewrite H in E. discriminate.
Qed.

Lemma is_word_not_pdf (f : file) :
  is_word f = true -> has_ext (file_name f) ".pdf" = false.
Proof.
  unfold is_word. intros H. apply orb_prop in H.
  destruct H as [H | H]; [now apply docx_not_pdf | now apply doc_not_pdf].
Qed.

Lemma file_step_docx_count (g : globals) (rel : string) (f : file)
      (cs : client_stats) :
  docx_count (file_step g rel f cs)
  = docx_count cs + (if is_word f then 1 else 0).
Proof.
  unfold file_step. destruct (is_word f) eqn:E.
  - rewrite (is_word_not_pdf f E). unfold is_word in E. rewrite E. reflexivity.
  - unfold is_word in E. rewrite E.
    destruct (has_ext (file_name f) ".pdf"); simpl; lia.
Qed.

Lemma files_fold_docx_count (g : globals) (client_folder root : path)
      (files : list file) (cs : client_stats) :
  docx_count (fold_left (files_step g client_folder root) files cs)
  = docx_count cs + Z.of_nat (List.length (filter is_word files)).
Proof.
  revert cs. induction files as [| f files IH]; intros cs; simpl; [lia |].
  rewrite IH. unfold files_step. rewrite file_step_docx_count.
  destruct (is_word f); simpl List.length; lia.
Qed.

Lemma walk_fold_docx_count (g : globals) (client_folder : path)
      (entries : list (path * list string * list file)) (cs : client_stats) :
  docx_count (fold_left (walk_step g client_folder) entries cs)
  = docx_count cs
    + Z.of_nat (List.length
                  (filter is_word (flat_map (fun entry => snd entry) entries))).
Proof.
  revert cs. induction entries as [| [[root dirs] files] entries IH];
    intros cs; simpl; [lia |].
  rewrite IH, files_fold_docx_count, filter_app, length_app. lia.
Qed.

Lemma client_docx_count (g : globals) (client_folder : path) (n : node) :
  docx_count (client_stats_of g client_folder n) = word_count client_folder n.
Proof.
  unfold client_stats_of, word_count, client_files. simpl.
  rewrite walk_fold_docx_count. reflexivity.
Qed.

Lemma scan_fold_docx_files (g : globals) (root_path : path) (l : list node)
      (acc : dict client_stats * Summary.t) :
  Summary.total_docx_files (snd (fold_left (scan_step g root_path) l acc))
  = Summary.total_docx_files (snd acc)
    + py_sum (map (fun n => word_count (root_path ++ [node_name n])%list n) l).
Proof.
  revert acc. induction l as [| n l IH]; intros acc; simpl.
  - unfold py_sum. simpl. lia.
  - rewrite IH, sum_cons.
    cbn [scan_step snd add_to_totals Summary.total_docx_files].
    rewrite client_docx_count. lia.
Qed.

(** C9. A file whose name ends, whatever the case, in .doc is appended to
    the [docx_files] of its client with 0 pages and adds one to
    [docx_count], the PDF side being left as it was; so the [docx_count] of
    a client is the number of its files ending in .docx or in .doc, and the
    summary's [total_docx_files] is the sum of these numbers over the client
    folders. *)
Theorem doc_files_are_counted_as_docx :
  forall (g : globals),
    (forall client_folder q f cs,
        has_ext (file_name f) ".doc" = true ->
        exists cs',
          outcome (file_body g client_folder (client_folder ++ q)%list f cs)
          = inr cs'
          /\ docx_files cs'
             = (docx_files cs
                ++ [mkDoc (path_str (q ++ [file_name f])%list) 0])%list
          /\ docx_count cs' = docx_count cs + 1
          /\ pdf_files cs' = pdf_files cs
          /\ pdf_count cs' = pdf_count cs)
    /\ (forall client_folder n,
           exists cs,
             outcome (client_scan g client_folder n) = inr cs
             /\ docx_count cs = word_count client_folder n
             /\ forall root dirs files f,
                 In (root, dirs, files) (os_walk client_folder n) ->
                 In f files ->
                 has_ext (file_name f) ".doc" = true ->
                 In (mkDoc (rel_path client_folder root (file_name f)) 0)
                    (docx_files cs))
    /\ (forall root_path name entries now,
           exists r,
             outcome (analyze_folder g root_path (Present (Dir name entries))
                                     now) = inr r
             /\ Summary.total_docx_files (summary r)
                = py_sum (map (fun n =>
                                 word_count (root_path ++ [node_name n])%list n)
                              (filter is_dir entries))).
Proof.
  intros g. split; [| split].
  - intros client_folder q f cs Hdoc. eexists.
    rewrite (file_body_doc g client_folder q f cs Hdoc).
    split; [reflexivity |]. simpl. repeat split.
  - intros client_folder n. eexists.
    split; [apply client_scan_outcome |].
    split; [apply client_docx_count |].
    intros root dirs files f Hentry Hf Hdoc.
    apply (recorded_by_client_scan g client_folder n root dirs files f
             (fun cs => In _ (docx_files cs)) Hentry Hf).
    + intros cs. unfold files_step, file_step.
      rewrite (doc_not_pdf _ Hdoc), (doc_not_docx _ Hdoc), Hdoc. simpl.
      apply in_or_app. right. left. reflexivity.
    + intros rel f' cs. apply file_step_keeps_docx.
    + intros cs H. exact H.
  - intros root_path name entries now. eexists.
    split; [apply analyze_folder_outcome |].
    unfold report_of. simpl summary. rewrite scan_fold_docx_files. simpl.
    apply sum_perm. apply Permutation_map. apply sorted_perm.
Qed.

(** ** Clients are the immediate subdirectories *)

Lemma scan_fold_keys (g : globals) (root_path : path) (l : list node)
      (acc : dict client_stats * Summary.t) (k : string) :
  In k (keys (fst (fold_left (scan_step g root_path) l acc)))
  <-> In k (keys (fst acc)) \/ In k (map node_name l).
Proof.
  revert acc. induction l as [| n l IH]; intros acc; simpl.
  - intuition.
  - rewrite IH. unfold scan_step. simpl fst. rewrite dict_set_keys.
    intuition.
Qed.

(** C10. The client entries of a report are the immediate subdirectories of
    the scan root. A regular file directly under the root changes nothing,
    neither in the report nor in what the scan prints or opens; and a root
    with no subdirectory gives a report with no client and a summary of
    zeros. *)
Theorem only_subdirectories_become_clients :
  forall (g : globals) (root_path : path) (name : string) (now : string),
    (forall before f after,
        analyze_folder g root_path
                       (Present (Dir name (before ++ File f :: after))) now
        = analyze_folder g root_path (Present (Dir name (before ++ after)))
                         now)
    /\ (forall entries,
           exists r,
             outcome (analyze_folder g root_path (Present (Dir name entries))
                                     now) = inr r
             /\ (forall k, In k (keys (clients r))
                           <-> In k (subdir_names entries))
             /\ (filter is_dir entries = [] ->
                 clients r = []
                 /\ summary r = Summary.mk 0 0 0 0 0 0)).
Proof.
  intros g root_path name now. split.
  - intros before f after.
    rewrite !analyze_folder_readable, !filter_app. reflexivity.
  - intros entries. eexists. split; [apply analyze_folder_outcome |].
    unfold report_of. simpl clients. simpl summary. split.
    + intros k. rewrite scan_fold_keys. simpl. unfold subdir_names.
      split.
      * intros [[] | H]. revert H. apply Permutation_in.
        apply Permutation_map. apply sorted_perm.
      * intros H. right. revert H. apply Permutation_in.
        apply Permutation_map. apply Permutation_sym. apply sorted_perm.
    + intros ->. split; reflexivity.
Qed.

(** ** Reading the CSV report back *)

Lemma save_csv_report_run (results : Report) (output_path : string) :
  save_csv_report results output_path
  = ([EvWrite output_path (csv_text results);
      EvPrint ("CSV report saved to: " ++ output_path)], inr tt).
Proof. reflexivity. Qed.

(** The data rows are the clients, in the order of their names. *)
Lemma csv_rows_sorted (results : Report) :
  csv_writes results
  = (csv_header
       :: map (fun kv => csv_row (fst kv) (snd kv))
              (sorted fst (clients results))
       ++ [csv_total_row (summary results)])%list
  /\ Sorted (key_le fst) (sorted fst (clients results))
  /\ Permutation (sorted fst (clients results)) (clients results).
Proof.
  split; [reflexivity |]. split; [apply sorted_sorted | apply sorted_perm].
Qed.

(** C8 at a client folder whose name is the four characters a, double
    quote, comma, b: the name holds a comma and is
    written between double quotes, without doubling the one it holds, and
    the data row reads back as eight fields, the first one [a], where the
    header and the TOTAL row have seven. *)
Theorem csv_row_of_name_with_quote_has_eight_fields :
  exists r,
    outcome (analyze_folder (mkGlobals true true) [""; "clients"]
                            quote_comma_root "2025-01-01T00:00:00")
    = inr r
    /\ keys (clients r) = [quote_comma_name]
    /\ Str.contains Str.comma quote_comma_name = true
    /\ safe_name quote_comma_name
       = String Str.dquote (quote_comma_name ++ String Str.dquote EmptyString)
    /\ map (@List.length string) (csv_parse (csv_text r)) = [7; 8; 7]%nat
    /\ map (hd EmptyString) (csv_parse (csv_text r))
       = ["Client Folder"; "a"; "TOTAL"].
Proof.
  eexists. split; [vm_compute; reflexivity |].
  repeat split; vm_compute; reflexivity.
Qed.

(** *** Names without a double quote read back as written *)

Lemma str_app_nil_r (s : string) : s ++ "" = s.
Proof. induction s as [| c s IH]; simpl; [reflexivity | now rewrite IH]. Qed.

Lemma concat_cons (x : string) (l : list string) :
  String.concat "" (x :: l) = x ++ String.concat "" l.
Proof. destruct l; simpl; [now rewrite str_app_nil_r | reflexivity]. Qed.

Lemma contains_cons (c d : ascii) (s : string) :
  Str.contains c (String d s) = Ascii.eqb c d || Str.contains c s.
Proof. reflexivity. Qed.

Lemma plain_cons (c : ascii) (s : string) :
  plain (String c s) ->
  Ascii.eqb c Str.dquote = false /\ Ascii.eqb c Str.comma = false
  /\ is_eol c = false /\ plain s.
Proof.
  unfold plain, is_eol. rewrite !contains_cons. intros (H1 & H2 & H3 & H4).
  apply orb_false_elim in H1, H2, H3, H4.
  destruct H1 as [H1 H1'], H2 as [H2 H2'], H3 as [H3 H3'], H4 as [H4 H4'].
  rewrite Ascii.eqb_sym in H1, H2, H3, H4. rewrite H3, H4.
  repeat split; assumption.
Qed.

Lemma read_in_field (fld cur : string) (row : list string) (rest : string) :
  plain fld ->
  csv_parse_from InField cur row (fld ++ rest)
  = csv_parse_from InField (cur ++ fld) row rest.
Proof.
  revert cur. induction fld as [| c fld IH]; intros cur Hp.
  - simpl. now rewrite str_app_nil_r.
  - apply plain_cons in Hp. destruct Hp as (_ & H2 & H3 & Hp).
    cbn [append csv_parse_from].
    rewrite H2, H3, (IH _ Hp). unfold push. now rewrite str_app_assoc.
Qed.

Lemma read_plain_field (fld : string) (row : list string) (rest : string) :
  plain fld ->
  csv_parse_from StartField "" row (fld ++ String Str.comma rest)
  = csv_parse_from StartField "" (row ++ [fld])%list rest.
Proof.
  intros Hp. destruct fld as [| c fld]; [reflexivity |].
  apply plain_cons in Hp. destruct Hp as (H1 & H2 & H3 & Hp).
  cbn [append csv_parse_from].
  rewrite H1, H2, H3, (read_in_field _ _ _ _ Hp). reflexivity.
Qed.

Lemma read_last_field (fld : string) (row : list string) (rest : string) :
  plain fld -> fld <> "" ->
  csv_parse_from StartField "" row (fld ++ String newline rest)
  = (row ++ [fld])%list :: csv_parse_from StartField "" [] rest.
Proof.
  intros Hp Hne. destruct fld as [| c fld]; [now elim Hne |].
  apply plain_cons in Hp. destruct Hp as (H1 & H2 & H3 & Hp).
  cbn [append csv_parse_from].
  rewrite H1, H2, H3, (read_in_field _ _ _ _ Hp). reflexivity.
Qed.

Lemma read_in_quotes (name cur : string) (row : list string) (rest : string) :
  Str.contains Str.dquote name = false ->
  csv_parse_from InQuoted cur row (name ++ String Str.dquote rest)
  = csv_parse_from QuoteInQuoted (cur ++ name) row rest.
Proof.
  revert cur. induction name as [| c name IH]; intros cur Hq.
  - simpl. now rewrite str_app_nil_r.
  - rewrite contains_cons in Hq. apply orb_false_elim in Hq.
    destruct Hq as [Hc Hq]. rewrite Ascii.eqb_sym in Hc.
    cbn [append csv_parse_from].
    rewrite Hc, (IH _ Hq). unfold push. now rewrite str_app_assoc.
Qed.

Lemma read_safe_name (name : string) (rest : string) :
  readable_name name ->
  csv_parse_from StartField "" [] (safe_name name ++ String Str.comma rest)
  = csv_parse_from StartField "" [name] rest.
Proof.
  intros (Hq & Hn & Hr). unfold safe_name.
  destruct (Str.contains Str.comma name) eqn:Hc.
  - simpl. rewrite str_app_assoc. simpl.
    rewrite (read_in_quotes _ _ _ _ Hq). reflexivity.
  - apply (read_plain_field name []). repeat split; assumption.
Qed.

Lemma plain_uint (d : Decimal.uint) : plain (NilEmpty.string_of_uint d).
Proof.
  induction d; simpl;
    try (destruct IHd as (H1 & H2 & H3 & H4); repeat split; simpl;
         assumption);
    repeat split.
Qed.

Lemma plain_of_int (n : Z) : plain (Str.of_int n).
Proof.
  unfold Str.of_int, NilZero.string_of_int, NilZero.string_of_uint.
  destruct (Z.to_int n) as [d | d].
  - destruct d; try apply (plain_uint (_ d)); repeat split.
  - destruct d;
      try (destruct (plain_uint d) as (H1 & H2 & H3 & H4));
      repeat split; simpl; assumption.
Qed.

Lemma of_int_nonempty (n : Z) : Str.of_int n <> "".
Proof.
  unfold Str.of_int, NilZero.string_of_int, NilZero.string_of_uint.
  destruct (Z.to_int n) as [d | d]; destruct d; discriminate.
Qed.

Lemma read_csv_row (k : string) (cs : client_stats) (rest : string) :
  readable_name k ->
  csv_parse_from StartField "" [] (csv_row k cs ++ rest)
  = row_fields (k, cs) :: csv_parse_from StartField "" [] rest.
Proof.
  intros Hk. unfold csv_row, nl. rewrite !str_app_assoc.
  change ("," ++ ?s) with (String Str.comma s).
  rewrite (read_safe_name _ _ Hk).
  repeat (change ("," ++ ?s) with (String Str.comma s)
          || (rewrite read_plain_field by apply plain_of_int; simpl app)).
  change (String newline "" ++ rest) with (String newline rest).
  rewrite read_last_field by (apply plain_of_int || apply of_int_nonempty).
  reflexivity.
Qed.

Lemma read_csv_total_row (s : Summary.t) :
  csv_parse_from StartField "" [] (csv_total_row s) = [total_fields s].
Proof.
  unfold csv_total_row, nl.
  change ("TOTAL," ++ ?s) with ("TOTAL" ++ String Str.comma s).
  rewrite read_plain_field by (repeat split).
  repeat (change ("," ++ ?s) with (String Str.comma s)
          || (rewrite read_plain_field by apply plain_of_int; simpl app)).
  rewrite read_last_field by (apply plain_of_int || apply of_int_nonempty).
  reflexivity.
Qed.

Lemma read_csv_rows (l : list (string * client_stats)) (s : Summary.t) :
  (forall k, In k (keys l) -> readable_name k) ->
  csv_parse_from StartField "" []
                 (String.concat ""
                    (map (fun kv => csv_row (fst kv) (snd kv)) l
                     ++ [csv_total_row s])%list)
  = (map row_fields l ++ [total_fields s])%list.
Proof.
  induction l as [| [k cs] l IH]; intros Hnames.
  - apply read_csv_total_row.
  - cbn [map app fst snd]. rewrite concat_cons.
    rewrite (read_csv_row k cs _ (Hnames k (or_introl eq_refl))). f_equal.
    apply IH. intros k' Hk'. apply Hnames. right. exact Hk'.
Qed.

(** When no client name holds a double quote, a carriage return or a line
    feed, the CSV text reads back as the header, one record of seven fields
    per client in the order of the names, the first field being the name
    (with its commas), and the TOTAL record. *)
Lemma csv_report_reads_back (r : Report) :
  (forall k, In k (keys (clients r)) ->
             Str.contains Str.dquote k = false
             /\ Str.contains newline k = false
             /\ Str.contains creturn k = false) ->
  csv_parse (csv_text r)
  = (header_fields
       :: map row_fields (sorted fst (clients r))
       ++ [total_fields (summary r)])%list.
Proof.
  intros Hnames. unfold csv_parse, csv_text, csv_writes.
  rewrite concat_cons.
  change (csv_parse_from StartField "" [] (csv_header ++ ?rest))
    with (header_fields :: csv_parse_from StartField "" [] rest).
  f_equal. apply read_csv_rows.
  intros k Hk. apply Hnames. revert Hk. apply Permutation_in.
  apply Permutation_map. apply sorted_perm.
Qed.

(** A client folder named [Smith, John] is written between double quotes
    and reads back as one field. *)
Example smith_john_row :
  csv_writes smith_report
  = [csv_header;
     String Str.dquote
            ("Smith, John" ++ String Str.dquote (",2,1,3,7,1,8" ++ nl));
     "TOTAL,2,1,3,7,1,8" ++ nl]
  /\ csv_parse (csv_text smith_report)
     = [header_fields;
        ["Smith, John"; "2"; "1"; "3"; "7"; "1"; "8"];
        ["TOTAL"; "2"; "1"; "3"; "7"; "1"; "8"]].
Proof. split; reflexivity. Qed.

(** ** A worked scan

    The scenario of a root [/clients] with a folder [Acme] (a PDF of three
    pages, a Word document without text, a legacy .doc file), a folder
    [Beta] (a PDF that cannot be read) and a PDF directly under the root. *)

Example demo_report_totals :
  map (fun kv => (fst kv, total_documents (snd kv), total_pages (snd kv)))
      (clients demo_report)
  = [("Acme", 3, 4); ("Beta", 1, 0)]
  /\ Summary.total_documents (summary demo_report) = 4
  /\ Summary.total_pages (summary demo_report) = 4.
Proof. repeat split. Qed.

Lemma totals_are_sums_of_parts_witness :
  outcome (analyze_folder demo_globals demo_path demo_root demo_now)
  = inr demo_report
  /\ (forall client_name cs,
         In (client_name, cs) (clients demo_report) ->
         total_documents cs = pdf_count cs + docx_count cs
         /\ total_pages cs = pdf_pages cs + docx_pages cs)
  /\ Summary.total_documents (summary demo_report)
     = Summary.total_pdf_files (summary demo_report)
       + Summary.total_docx_files (summary demo_report)
  /\ Summary.total_pages (summary demo_report)
     = Summary.total_pdf_pages (summary demo_report)
       + Summary.total_docx_pages (summary demo_report).
Proof.
  split; [vm_compute; reflexivity |].
  apply (totals_are_sums_of_parts demo_globals demo_path demo_root demo_now).
  vm_compute. reflexivity.
Defined.

Lemma summary_is_sum_over_clients_witness :
  distinct_names demo_entries
  /\ Summary.total_documents (summary demo_report)
     = py_sum (map total_documents (values (clients demo_report)))
  /\ Summary.total_pages (summary demo_report)
     = py_sum (map total_pages (values (clients demo_report))).
Proof.
  assert (Hnames : distinct_names demo_entries).
  { unfold distinct_names. simpl.
    repeat (constructor; [simpl; intuition discriminate |]). constructor. }
  split; [exact Hnames |].
  apply (summary_is_sum_over_clients demo_globals demo_path "clients"
                                     demo_entries demo_now demo_report Hnames).
  vm_compute. reflexivity.
Defined.

Lemma docx_page_estimate_witness :
  DOCX_SUPPORT demo_globals = true
  /\ as_docx long_docx = inr [Str.repeat "a" 3000; Str.repeat "b" 3000]
  /\ total_chars [Str.repeat "a" 3000; Str.repeat "b" 3000] = 6000
  /\ outcome (count_docx_pages demo_globals "/clients/Acme/long.docx"
                               long_docx) = inr 2.
Proof.
  split; [reflexivity |]. split; [reflexivity |].
  assert (Hn : total_chars [Str.repeat "a" 3000; Str.repeat "b" 3000] = 6000)
    by (vm_compute; reflexivity).
  split; [exact Hn |].
  destruct (docx_page_estimate demo_globals "/clients/Acme/long.docx"
                               long_docx _ eq_refl eq_refl)
    as (pages & Hrun & _ & _ & _ & _ & H6000).
  rewrite Hrun. f_equal. apply H6000. exact Hn.
Defined.



Lemma backend_availability_witness :
  PDF_SUPPORT no_pdf_globals = false
  /\ outcome (module_init (fun m => String.eqb m "docx")) = inr no_pdf_globals
  /\ count_pdf_pages no_pdf_globals "/clients/Beta/bad.pdf" bad_pdf
     = ([], inr 0)
  /\ Forall (fun e => is_pdf_open e = false)
            (trace (analyze_folder no_pdf_globals demo_path demo_root
                                   demo_now)).
Proof.
  split; [reflexivity |]. split; [reflexivity |].
  destruct (backend_availability_settled_at_startup
              (fun m => String.eqb m "docx")) as [_ Hrun].
  destruct (Hrun no_pdf_globals) as (Hpdf & _ & Htrace).
  split; [apply Hpdf; reflexivity |].
  apply (Htrace demo_path demo_root demo_now). reflexivity.
Defined.

Lemma legacy_doc_witness :
  has_ext (file_name old_doc) ".doc" = true
  /\ exists cs',
      file_body demo_globals [""; "clients"; "Acme"]
                [""; "clients"; "Acme"; "letters"] old_doc empty_client_stats
      = ([EvPrint "  Note: .doc file skipped for page count: old.DOC"],
         inr cs')
      /\ docx_files cs' = [mkDoc "letters/old.DOC" 0]
      /\ docx_pages cs' = 0.
Proof.
  split; [reflexivity |].
  destruct (legacy_doc_has_zero_pages
              demo_globals [""; "clients"; "Acme"] ["letters"] old_doc
              empty_client_stats eq_refl)
    as (_ & cs' & Hrun & Hfiles & Hpages & _).
  exists cs'. split; [exact Hrun |]. split; [exact Hfiles | exact Hpages].
Defined.

Lemma doc_files_counted_witness :
  has_ext (file_name old_doc) ".doc" = true
  /\ word_count [""; "clients"; "Acme"] acme = 2
  /\ exists cs,
      outcome (client_scan demo_globals [""; "clients"; "Acme"] acme) = inr cs
      /\ docx_count cs = 2
      /\ In (mkDoc "letters/old.DOC" 0) (docx_files cs).
Proof.
  split; [reflexivity |]. split; [reflexivity |].
  destruct (doc_files_are_counted_as_docx demo_globals) as (_ & Hclient & _).
  destruct (Hclient [""; "clients"; "Acme"] acme) as (cs & Hrun & Hn & Hin).
  exists cs. split; [exact Hrun |]. split; [exact Hn |].
  apply (Hin [""; "clients"; "Acme"; "letters"] [] [empty_docx; old_doc]
             old_doc).
  - right. left. reflexivity.
  - right. left. reflexivity.
  - reflexivity.
Defined.

Lemma only_subdirectories_witness :
  filter is_dir [File stray_pdf] = []
  /\ exists r,
      outcome (analyze_folder demo_globals demo_path
                              (Present (Dir "clients" [File stray_pdf]))
                              demo_now) = inr r
      /\ clients r = []
      /\ summary r = Summary.mk 0 0 0 0 0 0.
Proof.
  split; [reflexivity |].
  destruct (only_subdirectories_become_clients
              demo_globals demo_path "clients" demo_now) as [_ Hkeys].
  destruct (Hkeys [File stray_pdf]) as (r & Hrun & _ & Hempty).
  exists r. split; [exact Hrun |]. apply Hempty. reflexivity.
Defined.

(** * Further properties of the code *)

(** ** The records of a client *)

Lemma fold_left_flat_map {A B S} (step : S -> B -> S) (h : A -> list B)
      (l : list A) (s : S) :
  fold_left step (flat_map h l) s
  = fold_left (fun s a => fold_left step (h a) s) l s.
Proof.
  revert s. induction l as [| a l IH]; intros s; simpl; [reflexivity |].
  rewrite fold_left_app. apply IH.
Qed.

Lemma fold_left_map {A B S} (step : S -> B -> S) (h : A -> B) (l : list A)
      (s : S) :
  fold_left step (map h l) s = fold_left (fun s a => step s (h a)) l s.
Proof.
  revert s. induction l as [| a l IH]; intros s; simpl; [reflexivity |].
  apply IH.
Qed.

Lemma fold_left_ext_in {A S} (f g : S -> A -> S) (l : list A) (s : S) :
  (forall s a, In a l -> f s a = g s a) ->
  fold_left f l s = fold_left g l s.
Proof.
  revert s. induction l as [| a l IH]; intros s H; simpl; [reflexivity |].
  rewrite (H s a (or_introl eq_refl)). apply IH.
  intros s0 b Hb. apply H. right. exact Hb.
Qed.

(** The statistics of a client as one fold over the walked files. *)
Lemma client_stats_of_walked (g : globals) (client_folder : path) (n : node) :
  client_stats_of g client_folder n
  = set_client_totals
      (fold_left (fun cs rf => files_step g client_folder (fst rf) cs (snd rf))
                 (walked client_folder n) empty_client_stats).
Proof.
  unfold client_stats_of, walked. f_equal.
  rewrite fold_left_flat_map. apply fold_left_ext_in.
  intros cs [[root dirs] files] _. simpl. now rewrite fold_left_map.
Qed.

Lemma is_pdf_not_word (f : file) : is_pdf f = true -> is_word f = false.
Proof.
  intros H. destruct (is_word f) eqn:E; [| reflexivity].
  apply is_word_not_pdf in E. unfold is_pdf in H. congruence.
Qed.

Lemma files_step_records (g : globals) (client_folder : path)
      (cs : client_stats) (rf : path * file) :
  let cs' := files_step g client_folder (fst rf) cs (snd rf) in
  pdf_files cs'
  = (pdf_files cs
     ++ if is_pdf (snd rf) then [pdf_record g client_folder rf] else [])%list
  /\ docx_files cs'
     = (docx_files cs
        ++ if is_word (snd rf) then [word_record g client_folder rf]
           else [])%list.
Proof.
  destruct rf as [root f]. unfold files_step, file_step. simpl fst. simpl snd.
  destruct (is_pdf f) eqn:Ep.
  - rewrite (is_pdf_not_word f Ep). unfold is_pdf in Ep. rewrite Ep. simpl.
    split; [reflexivity | now rewrite app_nil_r].
  - unfold is_pdf in Ep. rewrite Ep. unfold is_word.
    destruct (has_ext (file_name f) ".docx" || has_ext (file_name f) ".doc");
      simpl; rewrite ?app_nil_r; split; reflexivity.
Qed.

Lemma walked_fold_records (g : globals) (client_folder : path)
      (l : list (path * file)) (cs : client_stats) :
  let cs' := fold_left
               (fun cs rf => files_step g client_folder (fst rf) cs (snd rf))
               l cs in
  pdf_files cs'
  = (pdf_files cs
     ++ map (pdf_record g client_folder)
            (filter (fun rf => is_pdf (snd rf)) l))%list
  /\ docx_files cs'
     = (docx_files cs
        ++ map (word_record g client_folder)
               (filter (fun rf => is_word (snd rf)) l))%list.
Proof.
  revert cs. induction l as [| rf l IH]; intros cs; simpl.
  - now rewrite !app_nil_r.
  - destruct (IH (files_step g client_folder (fst rf) cs (snd rf)))
      as [Hp Hw].
    destruct (files_step_records g client_folder cs rf) as [Hp1 Hw1].
    simpl in Hp, Hw. rewrite Hp, Hw, Hp1, Hw1.
    destruct (is_pdf (snd rf)), (is_word (snd rf)); simpl;
      rewrite <- ?app_assoc; split; reflexivity.
Qed.

(** X1. The scan of a client folder records, in the order of the walk,
    exactly the files whose name ends in .pdf (in [pdf_files], with the
    pages that [count_pdf_pages] returns) and exactly those whose name ends
    in .docx or .doc (in [docx_files]), each under its path relative to the
    client folder. *)
Theorem client_scan_records_walked_files :
  forall (g : globals) (client_folder : path) (n : node),
  exists cs,
    outcome (client_scan g client_folder n) = inr cs
    /\ pdf_files cs
       = map (pdf_record g client_folder)
             (filter (fun rf => is_pdf (snd rf)) (walked client_folder n))
    /\ docx_files cs
       = map (word_record g client_folder)
             (filter (fun rf => is_word (snd rf)) (walked client_folder n)).
Proof.
  intros g client_folder n. eexists.
  split; [apply client_scan_outcome |].
  rewrite client_stats_of_walked. simpl pdf_files. simpl docx_files.
  apply (walked_fold_records g client_folder (walked client_folder n)
                             empty_client_stats).
Qed.

(** ** Files at any depth *)

Lemma in_regular_files (entries : list node) (f : file) :
  In f (regular_files entries) <-> In (File f) entries.
Proof.
  induction entries as [| [f' | name es] entries IH]; simpl.
  - tauto.
  - rewrite IH. split; intros [H | H]; auto.
    + left. now f_equal.
    + left. now injection H.
  - rewrite IH. split; [auto | intros [H | H]; [discriminate | exact H]].
Qed.

Lemma flat_map_flat_map {A B C} (h : B -> list C) (k : A -> list B)
      (l : list A) :
  flat_map h (flat_map k l) = flat_map (fun a => flat_map h (k a)) l.
Proof.
  induction l as [| a l IH]; simpl; [reflexivity |].
  now rewrite flat_map_app, IH.
Qed.

Lemma walked_dir (top : path) (name : string) (entries : list node) :
  walked top (Dir name entries)
  = (map (fun f => (top, f)) (regular_files entries)
     ++ flat_map (fun e => walked (top ++ [node_name e])%list e) entries)%list.
Proof.
  unfold walked. simpl. f_equal. apply flat_map_flat_map.
Qed.

Lemma in_walked (n : node) :
  forall (top root : path) (f : file),
    In (root, f) (walked top n)
    <-> exists q, root = (top ++ q)%list /\ located n q f.
Proof.
  induction n as [f0 | name entries IH] using node_rect'; intros top root f.
  - split; [intros [] | intros (q & _ & H); inversion H].
  - rewrite walked_dir, in_app_iff, in_map_iff, in_flat_map.
    rewrite Forall_forall in IH. split.
    + intros [(f' & Heq & Hf') | (e & He & Hin)].
      * injection Heq as <- <-. exists []. rewrite app_nil_r.
        split; [reflexivity |]. constructor. now apply in_regular_files.
      * apply (IH e He) in Hin. destruct Hin as (q & -> & Hloc).
        exists (node_name e :: q). rewrite <- app_assoc.
        split; [reflexivity |]. now apply located_below.
    + intros (q & -> & Hloc). inversion Hloc as [? ? ? Hf | ? ? d q' ? Hd Hq];
        subst.
      * left. exists f. rewrite app_nil_r. split; [reflexivity |].
        now apply in_regular_files.
      * right. exists d. split; [exact Hd |].
        apply (IH d Hd). exists q'. now rewrite <- app_assoc.
Qed.

(** X2. A file is recorded for a client exactly when it lies somewhere in
    the tree of the client folder, at any depth, and its name ends in .pdf
    (for [pdf_files]) or in .docx or .doc (for [docx_files]); the record
    holds the path of the file relative to the client folder. *)
Theorem files_at_any_depth_are_recorded :
  forall (g : globals) (client_folder : path) (n : node),
  exists cs,
    outcome (client_scan g client_folder n) = inr cs
    /\ (forall d,
           In d (pdf_files cs)
           <-> exists q f,
               located n q f /\ is_pdf f = true
               /\ d = mkDoc (path_str (q ++ [file_name f])%list)
                            (pdf_pages_of g f))
    /\ (forall d,
           In d (docx_files cs)
           <-> exists q f,
               located n q f /\ is_word f = true
               /\ d = mkDoc (path_str (q ++ [file_name f])%list)
                            (word_pages_of g f)).
Proof.
  intros g client_folder n. eexists.
  split; [apply client_scan_outcome |].
  rewrite client_stats_of_walked. simpl pdf_files. simpl docx_files.
  destruct (walked_fold_records g client_folder (walked client_folder n)
                                empty_client_stats) as [Hp Hw].
  simpl in Hp, Hw. rewrite Hp, Hw. clear Hp Hw.
  split; intros d; rewrite in_map_iff; split.
  - intros ([root f] & <- & Hin). apply filter_In in Hin.
    destruct Hin as [Hin Hpdf]. apply in_walked in Hin.
    destruct Hin as (q & -> & Hloc). exists q, f.
    split; [exact Hloc |]. split; [exact Hpdf |].
    unfold pdf_record. simpl. now rewrite rel_path_below.
  - intros (q & f & Hloc & Hpdf & ->).
    exists ((client_folder ++ q)%list, f). split.
    + unfold pdf_record. simpl. now rewrite rel_path_below.
    + apply filter_In. split; [| exact Hpdf].
      apply in_walked. exists q. split; [reflexivity | exact Hloc].
  - intros ([root f] & <- & Hin). apply filter_In in Hin.
    destruct Hin as [Hin Hword]. apply in_walked in Hin.
    destruct Hin as (q & -> & Hloc). exists q, f.
    split; [exact Hloc |]. split; [exact Hword |].
    unfold word_record. simpl. now rewrite rel_path_below.
  - intros (q & f & Hloc & Hword & ->).
    exists ((client_folder ++ q)%list, f). split.
    + unfold word_record. simpl. now rewrite rel_path_below.
    + apply filter_In. split; [| exact Hword].
      apply in_walked. exists q. split; [reflexivity | exact Hloc].
Qed.

(** ** Invariants of the statistics *)

Lemma client_stats_of_inv (I : client_stats -> Prop) (g : globals)
      (client_folder : path) (n : node) :
  I empty_client_stats ->
  (forall rel f cs, I cs -> I (file_step g rel f cs)) ->
  (forall cs, I cs -> I (set_client_totals cs)) ->
  I (client_stats_of g client_folder n).
Proof.
  intros H0 Hstep Htot. unfold client_stats_of. apply Htot.
  apply fold_left_inv; [| exact H0].
  intros cs [[root dirs] files] _ Hcs. simpl.
  apply fold_left_inv; [| exact Hcs].
  intros cs' f _. apply Hstep.
Qed.

Lemma report_clients_inv (I : client_stats -> Prop) (g : globals)
      (root_path : path) (st : path_state) (now : string) (r : Report) :
  (forall client_folder n, I (client_stats_of g client_folder n)) ->
  outcome (analyze_folder g root_path st now) = inr r ->
  forall k cs, In (k, cs) (clients r) -> I cs.
Proof.
  intros HI Hrun.
  destruct (completed_report _ _ _ _ _ Hrun) as (_ & entries & ->).
  unfold report_of. simpl clients.
  apply (fold_left_inv
           (fun acc : dict client_stats * Summary.t =>
              forall k cs, In (k, cs) (fst acc) -> I cs)).
  - intros [results totals] n _ Hres k cs Hin. simpl in Hin.
    apply dict_set_in in Hin. destruct Hin as [Heq | Hin].
    + injection Heq as _ ->. apply HI.
    + exact (Hres k cs Hin).
  - intros k cs [].
Qed.

Lemma sum_snoc (l : list Z) (x : Z) : py_sum (l ++ [x]) = py_sum l + x.
Proof. rewrite sum_app, sum_cons. unfold py_sum. simpl. lia. Qed.

Lemma file_step_counters (g : globals) (rel : string) (f : file)
      (cs : client_stats) :
  counters_match_records cs -> counters_match_records (file_step g rel f cs).
Proof.
  unfold counters_match_records. intros (H1 & H2 & H3 & H4).
  unfold file_step, record_pdf, record_docx.
  destruct (has_ext (file_name f) ".pdf");
    cbn [pdf_files docx_files pdf_count docx_count pdf_pages docx_pages].
  - rewrite length_app, map_app. cbn [List.length map doc_pages].
    rewrite sum_snoc. repeat split; lia.
  - destruct (has_ext (file_name f) ".docx" || has_ext (file_name f) ".doc");
      cbn [pdf_files docx_files pdf_count docx_count pdf_pages docx_pages];
      [| repeat split; assumption].
    rewrite length_app, map_app. cbn [List.length map doc_pages].
    rewrite sum_snoc. repeat split; lia.
Qed.

(** X3. In every report that the scan returns, each client's [pdf_count]
    and [docx_count] are the lengths of its [pdf_files] and [docx_files]
    lists, and its [pdf_pages] and [docx_pages] are the sums of the pages of
    the records in these lists. *)
Theorem counters_agree_with_record_lists :
  forall (g : globals) (root_path : path) (st : path_state) (now : string)
         (r : Report),
    outcome (analyze_folder g root_path st now) = inr r ->
    forall client_name cs,
      In (client_name, cs) (clients r) ->
      pdf_count cs = Z.of_nat (List.length (pdf_files cs))
      /\ docx_count cs = Z.of_nat (List.length (docx_files cs))
      /\ pdf_pages cs = py_sum (map doc_pages (pdf_files cs))
      /\ docx_pages cs = py_sum (map doc_pages (docx_files cs)).
Proof.
  intros g root_path st now r Hrun.
  apply (report_clients_inv counters_match_records g root_path st now r);
    [| exact Hrun].
  intros client_folder n. apply client_stats_of_inv.
  - repeat split.
  - intros rel f cs. apply file_step_counters.
  - intros cs H. exact H.
Qed.

Lemma estimated_pages_positive (n : Z) : 1 <= estimated_pages n.
Proof. unfold estimated_pages. destruct (0 <? n); lia. Qed.

Lemma pdf_pages_of_nonneg (g : globals) (f : file) : 0 <= pdf_pages_of g f.
Proof.
  unfold pdf_pages_of. destruct (PDF_SUPPORT g), (as_pdf f); lia.
Qed.

Lemma docx_pages_of_nonneg (g : globals) (f : file) : 0 <= docx_pages_of g f.
Proof.
  unfold docx_pages_of. destruct (DOCX_SUPPORT g), (as_docx f); try lia.
  pose proof (estimated_pages_positive (total_chars l)). lia.
Qed.

Lemma file_step_nonneg (g : globals) (rel : string) (f : file)
      (cs : client_stats) :
  nonnegative_stats cs -> nonnegative_stats (file_step g rel f cs).
Proof.
  unfold nonnegative_stats.
  intros (H1 & H2 & H3 & H4 & H5 & H6 & H7 & H8).
  pose proof (pdf_pages_of_nonneg g f) as Hp.
  pose proof (docx_pages_of_nonneg g f) as Hd.
  unfold file_step. destruct (has_ext (file_name f) ".pdf"); simpl.
  - repeat split; try assumption; try lia.
    apply Forall_app. split; [exact H1 | repeat constructor; exact Hp].
  - destruct (has_ext (file_name f) ".docx" || has_ext (file_name f) ".doc");
      simpl; [| repeat split; assumption].
    assert (0 <= if has_ext (file_name f) ".docx" then docx_pages_of g f
                 else 0)
      by (destruct (has_ext (file_name f) ".docx"); lia).
    repeat split; try assumption; try lia.
    apply Forall_app. split; [exact H2 | repeat constructor; assumption].
Qed.

Lemma client_stats_of_nonneg (g : globals) (client_folder : path) (n : node) :
  nonnegative_stats (client_stats_of g client_folder n).
Proof.
  apply client_stats_of_inv.
  - unfold nonnegative_stats. simpl. repeat split; try constructor; lia.
  - intros rel f cs. apply file_step_nonneg.
  - unfold nonnegative_stats. intros cs (H1 & H2 & H3 & H4 & H5 & H6 & _).
    simpl. repeat split; try assumption; lia.
Qed.

(** X4. No number of a returned report is negative: neither the pages of a
    record, nor a counter or a page total of a client, nor a field of the
    summary. *)
Theorem report_numbers_are_nonnegative :
  forall (g : globals) (root_path : path) (st : path_state) (now : string)
         (r : Report),
    outcome (analyze_folder g root_path st now) = inr r ->
    (forall client_name cs,
        In (client_name, cs) (clients r) ->
        Forall (fun d => 0 <= doc_pages d) (pdf_files cs)
        /\ Forall (fun d => 0 <= doc_pages d) (docx_files cs)
        /\ 0 <= pdf_count cs /\ 0 <= docx_count cs
        /\ 0 <= pdf_pages cs /\ 0 <= docx_pages cs
        /\ 0 <= total_documents cs /\ 0 <= total_pages cs)
    /\ 0 <= Summary.total_pdf_files (summary r)
    /\ 0 <= Summary.total_docx_files (summary r)
    /\ 0 <= Summary.total_pdf_pages (summary r)
    /\ 0 <= Summary.total_docx_pages (summary r)
    /\ 0 <= Summary.total_documents (summary r)
    /\ 0 <= Summary.total_pages (summary r).
Proof.
  intros g root_path st now r Hrun. split.
  - apply (report_clients_inv nonnegative_stats g root_path st now r);
      [| exact Hrun].
    intros client_folder n. apply client_stats_of_nonneg.
  - destruct (completed_report _ _ _ _ _ Hrun) as (_ & entries & ->).
    unfold report_of. simpl summary.
    apply (fold_left_inv
             (fun acc : dict client_stats * Summary.t =>
                nonnegative_summary (snd acc))).
    + intros [results totals] n _ Hs.
      destruct (client_stats_of_nonneg g (root_path ++ [node_name n])%list n)
        as (_ & _ & H3 & H4 & H5 & H6 & H7 & H8).
      unfold nonnegative_summary, scan_step, add_to_totals in *.
      cbn [fst snd Summary.total_pdf_files Summary.total_docx_files
           Summary.total_pdf_pages Summary.total_docx_pages
           Summary.total_documents Summary.total_pages] in *.
      destruct Hs as (S1 & S2 & S3 & S4 & S5 & S6). repeat split; lia.
    + unfold nonnegative_summary. simpl. repeat split; lia.
Qed.

Lemma scan_fold_part_sums (g : globals) (root_path : path) (l : list node) :
  NoDup (map node_name l) ->
  forall acc,
    (forall n, In n l -> ~ In (node_name n) (keys (fst acc))) ->
    summary_parts_are_sums acc ->
    summary_parts_are_sums (fold_left (scan_step g root_path) l acc).
Proof.
  induction l as [| n l IH]; intros Hnd acc Hfresh Hsum; simpl;
    [exact Hsum |].
  inversion Hnd as [| ? ? Hn Hnd']; subst.
  apply IH; [exact Hnd' | |].
  - intros m Hm. unfold scan_step. simpl fst. rewrite dict_set_keys.
    intros [Heq | Hin].
    + apply Hn. rewrite <- Heq. apply in_map. exact Hm.
    + apply (Hfresh m); [right; exact Hm | exact Hin].
  - destruct Hsum as (H1 & H2 & H3 & H4).
    unfold summary_parts_are_sums, scan_step. simpl.
    rewrite dict_set_fresh by (apply Hfresh; left; reflexivity).
    unfold values in *. rewrite !map_app. cbn [map snd]. rewrite !sum_snoc.
    rewrite <- H1, <- H2, <- H3, <- H4. repeat split; reflexivity.
Qed.

(** X5. In every report returned for a root whose subdirectories have
    distinct names, each per-format field of the summary is the sum of the
    corresponding field over the clients: PDF files, Word files, PDF pages
    and Word pages. *)
Theorem summary_parts_are_sums_over_clients :
  forall (g : globals) (root_path : path) (name : string)
         (entries : list node) (now : string) (r : Report),
    distinct_names entries ->
    outcome (analyze_folder g root_path (Present (Dir name entries)) now)
    = inr r ->
    Summary.total_pdf_files (summary r)
    = py_sum (map pdf_count (values (clients r)))
    /\ Summary.total_docx_files (summary r)
       = py_sum (map docx_count (values (clients r)))
    /\ Summary.total_pdf_pages (summary r)
       = py_sum (map pdf_pages (values (clients r)))
    /\ Summary.total_docx_pages (summary r)
       = py_sum (map docx_pages (values (clients r))).
Proof.
  intros g root_path name entries now r Hnd Hrun.
  rewrite analyze_folder_outcome in Hrun. injection Hrun as <-.
  unfold report_of. simpl clients. simpl summary.
  apply (scan_fold_part_sums g root_path _ (sorted_clients_distinct _ Hnd)
                             ([], empty_total_stats)).
  - intros n _ [].
  - repeat split.
Qed.

(** ** Files of another kind *)

(** X6. A file whose name ends neither in .pdf nor in .docx nor in .doc
    (whatever the case) is skipped: the statistics are left as they were, no
    backend is called on it and nothing is printed. *)
Theorem other_files_are_ignored :
  forall (g : globals) (client_folder q : path) (f : file)
         (cs : client_stats),
    has_ext (file_name f) ".pdf" = false ->
    has_ext (file_name f) ".docx" = false ->
    has_ext (file_name f) ".doc" = false ->
    file_body g client_folder (client_folder ++ q)%list f cs = ([], inr cs).
Proof.
  intros g client_folder q f cs Hpdf Hdocx Hdoc. unfold file_body.
  rewrite <- app_assoc, relative_to_below, bind_ret.
  unfold has_ext in *. rewrite Hpdf, Hdocx, Hdoc. reflexivity.
Qed.

Lemma counters_agree_witness :
  outcome (analyze_folder demo_globals demo_path demo_root demo_now)
  = inr demo_report
  /\ forall client_name cs,
      In (client_name, cs) (clients demo_report) ->
      pdf_count cs = Z.of_nat (List.length (pdf_files cs))
      /\ docx_count cs = Z.of_nat (List.length (docx_files cs))
      /\ pdf_pages cs = py_sum (map doc_pages (pdf_files cs))
      /\ docx_pages cs = py_sum (map doc_pages (docx_files cs)).
Proof.
  split; [vm_compute; reflexivity |].
  apply (counters_agree_with_record_lists
           demo_globals demo_path demo_root demo_now).
  vm_compute. reflexivity.
Defined.

Lemma report_numbers_nonnegative_witness :
  outcome (analyze_folder demo_globals demo_path demo_root demo_now)
  = inr demo_report
  /\ 0 <= Summary.total_pages (summary demo_report).
Proof.
  split; [vm_compute; reflexivity |].
  apply (report_numbers_are_nonnegative
           demo_globals demo_path demo_root demo_now).
  vm_compute. reflexivity.
Defined.

Lemma summary_parts_witness :
  distinct_names demo_entries
  /\ Summary.total_pdf_files (summary demo_report)
     = py_sum (map pdf_count (values (clients demo_report)))
  /\ Summary.total_docx_files (summary demo_report)
     = py_sum (map docx_count (values (clients demo_report)))
  /\ Summary.total_pdf_pages (summary demo_report)
     = py_sum (map pdf_pages (values (clients demo_report)))
  /\ Summary.total_docx_pages (summary demo_report)
     = py_sum (map docx_pages (values (clients demo_report))).
Proof.
  assert (Hnames : distinct_names demo_entries).
  { unfold distinct_names. simpl.
    repeat (constructor; [simpl; intuition discriminate |]). constructor. }
  split; [exact Hnames |].
  apply (summary_parts_are_sums_over_clients
           demo_globals demo_path "clients" demo_entries demo_now
           demo_report Hnames).
  vm_compute. reflexivity.
Defined.

Lemma other_files_witness :
  has_ext (file_name notes_txt) ".pdf" = false
  /\ has_ext (file_name notes_txt) ".docx" = false
  /\ has_ext (file_name notes_txt) ".doc" = false
  /\ file_body demo_globals [""; "clients"; "Acme"]
               [""; "clients"; "Acme"; "letters"] notes_txt
               empty_client_stats
     = ([], inr empty_client_stats).
Proof.
  split; [reflexivity |]. split; [reflexivity |]. split; [reflexivity |].
  apply (other_files_are_ignored demo_globals [""; "clients"; "Acme"]
                                 ["letters"] notes_txt empty_client_stats);
    reflexivity.
Defined.

(** ** The estimators *)


(** X8. The page estimate of a Word document is at least 1, does not
    decrease when the text grows, and from 3000 characters on it is the
    number of whole blocks of 3000 characters: [3000 * pages <= n < 3000 *
    (pages + 1)]. *)
Theorem page_estimate_bounds :
  forall n m : Z,
    1 <= estimated_pages n
    /\ (3000 <= n ->
        3000 * estimated_pages n <= n < 3000 * (estimated_pages n + 1))
    /\ (n <= m -> estimated_pages n <= estimated_pages m).
Proof.
  intros n m. split; [apply estimated_pages_positive |]. split.
  - intros Hn. unfold estimated_pages.
    destruct (Z.ltb_spec 0 n) as [_ | H]; [| lia].
    assert (1 <= n / 3000) by (apply Z.div_le_lower_bound; lia).
    rewrite Z.max_r by lia.
    pose proof (Z.mul_div_le n 3000 ltac:(lia)).
    pose proof (Z.mul_succ_div_gt n 3000 ltac:(lia)). lia.
  - intros Hnm. unfold estimated_pages.
    destruct (Z.ltb_spec 0 n) as [Hn | Hn], (Z.ltb_spec 0 m) as [Hm | Hm];
      try lia.
    pose proof (Z.div_le_mono n m 3000 ltac:(lia) Hnm). lia.
Qed.


(** ** Backend calls of a scan *)

Lemma trace_bind_ret {A B} (m : M A) (h : A -> B) (a : A) :
  outcome m = inr a -> trace (bind m (fun x => ret (h x))) = trace m.
Proof.
  intros H. rewrite (trace_bind_ok _ _ _ H). apply app_nil_r.
Qed.

Lemma for_each_trace_flat_map {A S X} (h : event -> list X) (l : list A)
      (body : A -> S -> M S) (step : S -> A -> S) (tr : A -> list X) :
  (forall a s, In a l ->
               outcome (body a s) = inr (step s a)
               /\ flat_map h (trace (body a s)) = tr a) ->
  forall s, flat_map h (trace (for_each l body s)) = flat_map tr l.
Proof.
  induction l as [| a l IH]; intros Hbody s; simpl; [reflexivity |].
  destruct (Hbody a s (or_introl eq_refl)) as [Hout Htr].
  rewrite (trace_bind_ok _ _ _ Hout), flat_map_app, Htr. f_equal.
  apply IH. intros b s0 Hb. apply Hbody. right. exact Hb.
Qed.

Lemma flat_map_if {A B} (p : A -> bool) (h : A -> B) (l : list A) :
  flat_map (fun a => if p a then [h a] else []) l = map h (filter p l).
Proof.
  induction l as [| a l IH]; simpl; [reflexivity |].
  destruct (p a); simpl; now rewrite IH.
Qed.

Lemma flat_map_map {A B C} (h : B -> list C) (k : A -> B) (l : list A) :
  flat_map h (map k l) = flat_map (fun a => h (k a)) l.
Proof.
  induction l as [| a l IH]; simpl; [reflexivity | now rewrite IH].
Qed.

Lemma file_body_trace_eq (g : globals) (client_folder q : path) (f : file)
      (cs : client_stats) :
  trace (file_body g client_folder (client_folder ++ q)%list f cs)
  = if is_pdf f then
      trace (count_pdf_pages
               g (path_str ((client_folder ++ q) ++ [file_name f])%list) f)
    else if is_docx f then
      trace (count_docx_pages
               g (path_str ((client_folder ++ q) ++ [file_name f])%list) f)
    else if has_ext (file_name f) ".doc" then [doc_note (file_name f)]
    else [].
Proof.
  unfold file_body, is_pdf, is_docx, has_ext.
  rewrite <- (app_assoc client_folder q) at 1.
  rewrite relative_to_below, bind_ret.
  destruct (Str.endswith (Str.lower (file_name f)) ".pdf").
  - apply trace_bind_ret with (a := pdf_pages_of g f).
    apply count_pdf_pages_outcome.
  - destruct (Str.endswith (Str.lower (file_name f)) ".docx").
    + apply trace_bind_ret with (a := docx_pages_of g f).
      apply count_docx_pages_outcome.
    + destruct (Str.endswith (Str.lower (file_name f)) ".doc"); reflexivity.
Qed.

Lemma file_body_opens (g : globals) (client_folder q : path) (f : file)
      (cs : client_stats) :
  let t := trace (file_body g client_folder (client_folder ++ q)%list f cs) in
  let p := path_str ((client_folder ++ q) ++ [file_name f])%list in
  pdf_opens t = (if PDF_SUPPORT g && is_pdf f then [p] else [])
  /\ docx_opens t = (if DOCX_SUPPORT g && is_docx f then [p] else []).
Proof.
  cbv zeta. rewrite file_body_trace_eq.
  destruct (is_pdf f) eqn:Ep.
  - assert (Ed : is_docx f = false).
    { destruct (is_docx f) eqn:E; [| reflexivity].
      apply docx_not_pdf in E. unfold is_pdf in Ep. congruence. }
    rewrite Ed, count_pdf_pages_trace, andb_true_r, andb_false_r.
    destruct (PDF_SUPPORT g), (as_pdf f); split; reflexivity.
  - rewrite andb_false_r. destruct (is_docx f).
    + rewrite count_docx_pages_trace, andb_true_r.
      destruct (DOCX_SUPPORT g), (as_docx f); split; reflexivity.
    + rewrite andb_false_r.
      destruct (has_ext (file_name f) ".doc"); split; reflexivity.
Qed.

Lemma client_scan_opens (g : globals) (client_folder : path) (n : node)
      (h : event -> list string) (b : bool) (p : file -> bool) :
  (forall q f cs,
      flat_map h (trace (file_body g client_folder (client_folder ++ q)%list
                                   f cs))
      = if b && p f
        then [path_str ((client_folder ++ q) ++ [file_name f])%list]
        else []) ->
  flat_map h (trace (client_scan g client_folder n))
  = if b
    then map walked_path (filter (fun rf => p (snd rf)) (walked client_folder n))
    else [].
Proof.
  intros Hfile. unfold client_scan.
  rewrite (trace_bind_ret _ _ _
             (for_each_fold _ _ (walk_step g client_folder)
                (fun e s He => walk_body_outcome g client_folder n e s He)
                empty_client_stats)).
  rewrite (for_each_trace_flat_map
             h _ _ (walk_step g client_folder)
             (fun entry : path * list string * list file =>
                flat_map (fun f => if b && p f
                                   then [walked_path (fst (fst entry), f)]
                                   else [])
                         (snd entry))).
  - unfold walked. rewrite <- flat_map_if, flat_map_flat_map.
    destruct b; simpl.
    + apply flat_map_ext. intros [[root dirs] files]. simpl.
      now rewrite flat_map_map.
    + induction (os_walk client_folder n) as [| [[root dirs] files] l IH];
        simpl; [reflexivity |].
      rewrite IH, app_nil_r. clear IH.
      induction files as [| f files IHf]; simpl; [reflexivity | exact IHf].
  - intros [[root dirs] files] s Hin.
    split; [now apply (walk_body_outcome g client_folder n) |].
    destruct (os_walk_below n _ _ _ _ Hin) as [q ->].
    unfold walk_body. cbn [fst snd].
    apply (for_each_trace_flat_map
             h files _ (files_step g client_folder (client_folder ++ q)%list)).
    intros f cs _. split.
    + rewrite file_body_outcome. unfold files_step.
      now rewrite rel_path_below.
    + apply Hfile.
Qed.

(** X10. During the scan of a client folder the PDF reader is called once
    on each file whose name ends in .pdf, in the order of the walk, and on
    nothing else; the Word reader is called once on each file whose name
    ends in .docx, and on nothing else (never on a .doc file); and a backend
    that is unavailable is not called at all. *)
Theorem backends_are_called_once_per_matching_file :
  forall (g : globals) (client_folder : path) (n : node),
    pdf_opens (trace (client_scan g client_folder n))
    = (if PDF_SUPPORT g
       then map walked_path
                (filter (fun rf => is_pdf (snd rf)) (walked client_folder n))
       else [])
    /\ docx_opens (trace (client_scan g client_folder n))
       = (if DOCX_SUPPORT g
          then map walked_path
                   (filter (fun rf => is_docx (snd rf))
                           (walked client_folder n))
          else []).
Proof.
  intros g client_folder n. split.
  - apply (client_scan_opens g client_folder n _ (PDF_SUPPORT g) is_pdf).
    intros q f cs. apply (file_body_opens g client_folder q f cs).
  - apply (client_scan_opens g client_folder n _ (DOCX_SUPPORT g) is_docx).
    intros q f cs. apply (file_body_opens g client_folder q f cs).
Qed.

(** ** The order of the clients *)

Lemma ascii_compare_lt_trans (a b c : ascii) :
  Ascii.compare a b = Lt -> Ascii.compare b c = Lt -> Ascii.compare a c = Lt.
Proof.
  unfold Ascii.compare. rewrite !N.compare_lt_iff. apply N.lt_trans.
Qed.

Lemma string_compare_lt_trans (s1 : string) :
  forall s2 s3,
    String.compare s1 s2 = Lt -> String.compare s2 s3 = Lt ->
    String.compare s1 s3 = Lt.
Proof.
  induction s1 as [| c1 s1 IH]; intros [| c2 s2] [| c3 s3]; simpl;
    try discriminate; try reflexivity.
  destruct (Ascii.compare c1 c2) eqn:E12; try discriminate;
    destruct (Ascii.compare c2 c3) eqn:E23; try discriminate; intros H1 H2.
  - apply Ascii.compare_eq_iff in E12, E23. subst.
    assert (E : Ascii.compare c3 c3 = Eq)
      by (unfold Ascii.compare; apply N.compare_refl).
    rewrite E. now apply (IH s2 s3).
  - apply Ascii.compare_eq_iff in E12. subst. now rewrite E23.
  - apply Ascii.compare_eq_iff in E23. subst. now rewrite E12.
  - now rewrite (ascii_compare_lt_trans _ _ _ E12 E23).
Qed.

Lemma str_le_lt_or_eq (a b : string) :
  str_le a b <-> String.compare a b = Lt \/ a = b.
Proof.
  unfold str_le, String.leb. split.
  - destruct (String.compare a b) eqn:E; intros H; try discriminate.
    + right. now apply String.compare_eq_iff.
    + now left.
  - intros [-> | ->]; [reflexivity |].
    assert (E : String.compare b b = Eq).
    { induction b as [| c b IH]; simpl; [reflexivity |].
      assert (Ec : Ascii.compare c c = Eq)
        by (unfold Ascii.compare; apply N.compare_refl).
      now rewrite Ec. }
    now rewrite E.
Qed.

Lemma str_le_trans (a b c : string) : str_le a b -> str_le b c -> str_le a c.
Proof.
  rewrite !str_le_lt_or_eq. intros [H1 | ->] [H2 | ->]; auto.
  left. now apply (string_compare_lt_trans a b c).
Qed.

Lemma key_le_trans {A} (key : A -> string) (x y z : A) :
  key_le key x y -> key_le key y z -> key_le key x z.
Proof. apply str_le_trans. Qed.

Lemma sorted_strongly {A} (key : A -> string) (l : list A) :
  StronglySorted (key_le key) (sorted key l).
Proof.
  apply Sorted_StronglySorted.
  - intros x y z. apply key_le_trans.
  - apply sorted_sorted.
Qed.

(** Two sorted lists with the same elements, of distinct keys, are equal. *)
Lemma sorted_unique {A} (key : A -> string) (l1 : list A) :
  forall l2,
    StronglySorted (key_le key) l1 -> StronglySorted (key_le key) l2 ->
    Permutation l1 l2 -> NoDup (map key l1) -> l1 = l2.
Proof.
  induction l1 as [| a l1 IH]; intros l2 S1 S2 Hp Hnd.
  - apply Permutation_nil in Hp. now subst.
  - destruct l2 as [| b l2];
      [apply Permutation_sym, Permutation_nil in Hp; discriminate |].
    inversion S1 as [| ? ? S1' Ha]; subst.
    inversion S2 as [| ? ? S2' Hb]; subst.
    inversion Hnd as [| ? ? Hka Hnd']; subst.
    assert (Hab : a = b).
    { assert (Hb1 : In b (a :: l1))
        by (apply (Permutation_in b (Permutation_sym Hp)); now left).
      assert (Ha2 : In a (b :: l2))
        by (apply (Permutation_in a Hp); now left).
      destruct Hb1 as [Hb1 | Hb1]; [exact Hb1 |].
      destruct Ha2 as [Ha2 | Ha2]; [now symmetry |].
      exfalso. apply Hka.
      rewrite Forall_forall in Ha, Hb.
      rewrite (String.leb_antisym _ _ (Ha b Hb1) (Hb a Ha2)).
      now apply in_map. }
    subst b. f_equal. apply IH; try assumption.
    now apply Permutation_cons_inv with a.
Qed.

Lemma perm_filter {A} (p : A -> bool) (l l' : list A) :
  Permutation l l' -> Permutation (filter p l) (filter p l').
Proof.
  induction 1 as [| x l l' _ IH | x y l | l l' l'' _ IH1 _ IH2]; simpl.
  - constructor.
  - destruct (p x); [now constructor | exact IH].
  - destruct (p x), (p y); try apply Permutation_refl. apply perm_swap.
  - now apply perm_trans with (filter p l').
Qed.

Lemma sorted_clients_perm (entries entries' : list node) :
  Permutation entries entries' -> distinct_names entries ->
  sorted node_name (filter is_dir entries)
  = sorted node_name (filter is_dir entries').
Proof.
  intros Hp Hnd. apply (sorted_unique node_name).
  - apply sorted_strongly.
  - apply sorted_strongly.
  - eapply perm_trans; [apply sorted_perm |].
    eapply perm_trans; [apply perm_filter, Hp |].
    apply Permutation_sym, sorted_perm.
  - now apply sorted_clients_distinct.
Qed.

(** X11. The order in which the scan root lists its entries does not
    matter: two listings of the same entries (subdirectories of distinct
    names) give the same run of the scan, the same report and the same
    output, because the client folders are processed in the order of their
    names. *)
Theorem root_listing_order_is_irrelevant :
  forall (g : globals) (root_path : path) (name : string)
         (entries entries' : list node) (now : string),
    Permutation entries entries' ->
    distinct_names entries ->
    analyze_folder g root_path (Present (Dir name entries)) now
    = analyze_folder g root_path (Present (Dir name entries')) now.
Proof.
  intros g root_path name entries entries' now Hp Hnd.
  rewrite !analyze_folder_readable. unfold scan_client_folders.
  rewrite (sorted_clients_perm entries entries' Hp Hnd).
  rewrite (Permutation_length (perm_filter is_dir _ _ Hp)).
  reflexivity.
Qed.

Lemma scan_fold_keys_fresh (g : globals) (root_path : path) (l : list node) :
  NoDup (map node_name l) ->
  forall acc,
    (forall n, In n l -> ~ In (node_name n) (keys (fst acc))) ->
    keys (fst (fold_left (scan_step g root_path) l acc))
    = (keys (fst acc) ++ map node_name l)%list.
Proof.
  induction l as [| n l IH]; intros Hnd acc Hfresh; simpl.
  - now rewrite app_nil_r.
  - inversion Hnd as [| ? ? Hn Hnd']; subst.
    rewrite IH; [| exact Hnd' |].
    + unfold scan_step. simpl fst.
      rewrite dict_set_fresh by (apply Hfresh; left; reflexivity).
      unfold keys. rewrite map_app, <- app_assoc. reflexivity.
    + intros m Hm. unfold scan_step. simpl fst. rewrite dict_set_keys.
      intros [Heq | Hin].
      * apply Hn. rewrite <- Heq. apply in_map. exact Hm.
      * apply (Hfresh m); [right; exact Hm | exact Hin].
Qed.

Lemma sorted_map_keys {A} (key : A -> string) (l : list A) :
  StronglySorted (key_le key) l -> StronglySorted str_le (map key l).
Proof.
  induction 1 as [| a l _ IH Ha]; simpl; constructor; [exact IH |].
  rewrite Forall_forall in *. intros k Hk. apply in_map_iff in Hk.
  destruct Hk as (b & <- & Hb). exact (Ha b Hb).
Qed.

(** X12. On a POSIX system, where [sorted] compares the client folder paths
    as case-sensitive strings, the [clients] dictionary of a returned report
    lists the client folders in increasing order of their names, each once:
    its keys are the names of the subdirectories of the root (taken
    distinct), sorted. *)
Theorem clients_are_in_name_order :
  forall (g : globals) (root_path : path) (name : string)
         (entries : list node) (now : string) (r : Report),
    distinct_names entries ->
    outcome (analyze_folder g root_path (Present (Dir name entries)) now)
    = inr r ->
    StronglySorted str_le (keys (clients r))
    /\ NoDup (keys (clients r))
    /\ Permutation (keys (clients r)) (subdir_names entries).
Proof.
  intros g root_path name entries now r Hnd Hrun.
  rewrite analyze_folder_outcome in Hrun. injection Hrun as <-.
  unfold report_of. simpl clients.
  rewrite (scan_fold_keys_fresh g root_path _ (sorted_clients_distinct _ Hnd)
                                ([], empty_total_stats))
    by (intros n _ []).
  simpl. split; [| split].
  - apply sorted_map_keys, sorted_strongly.
  - now apply sorted_clients_distinct.
  - apply Permutation_map, sorted_perm.
Qed.

Lemma root_listing_order_witness :
  Permutation demo_entries [acme; beta; File stray_pdf]
  /\ distinct_names demo_entries
  /\ analyze_folder demo_globals demo_path demo_root demo_now
     = analyze_folder demo_globals demo_path
                      (Present (Dir "clients" [acme; beta; File stray_pdf]))
                      demo_now.
Proof.
  assert (Hp : Permutation demo_entries [acme; beta; File stray_pdf]).
  { unfold demo_entries.
    apply perm_trans with [beta; acme; File stray_pdf];
      [apply perm_skip, perm_swap | apply perm_swap]. }
  assert (Hnames : distinct_names demo_entries).
  { unfold distinct_names. simpl.
    repeat (constructor; [simpl; intuition discriminate |]). constructor. }
  split; [exact Hp |]. split; [exact Hnames |].
  apply (root_listing_order_is_irrelevant
           demo_globals demo_path "clients" demo_entries
           [acme; beta; File stray_pdf] demo_now Hp Hnames).
Defined.

Lemma clients_in_name_order_witness :
  distinct_names demo_entries
  /\ keys (clients demo_report) = ["Acme"; "Beta"]
  /\ StronglySorted str_le (keys (clients demo_report)).
Proof.
  assert (Hnames : distinct_names demo_entries).
  { unfold distinct_names. simpl.
    repeat (constructor; [simpl; intuition discriminate |]). constructor. }
  split; [exact Hnames |]. split; [reflexivity |].
  apply (clients_are_in_name_order
           demo_globals demo_path "clients" demo_entries demo_now
           demo_report Hnames).
  vm_compute. reflexivity.
Defined.

(** ** Loading the module *)

(** X13. Loading the module never raises. The import from [pypdf] is tried
    first, the import from [PyPDF2] only when that one raised
    [ImportError], then the import from [docx]; the PDF flag is set exactly
    when one of the two PDF imports succeeds, the Word flag exactly when the
    import from [docx] succeeds; and the two lines of a warning are printed
    for a format exactly when its flag is false. *)
Theorem module_init_fallback_order :
  forall (installed : string -> bool),
  exists t g,
    module_init installed = (t, inr g)
    /\ imports t
       = ("pypdf" :: (if installed "pypdf" then [] else ["PyPDF2"])
          ++ ["docx"])%list
    /\ PDF_SUPPORT g = installed "pypdf" || installed "PyPDF2"
    /\ DOCX_SUPPORT g = installed "docx"
    /\ printed t
       = ((if PDF_SUPPORT g then []
           else ["Warning: pypdf or PyPDF2 not installed. PDF page counting will be unavailable.";
                 "Install with: pip install pypdf"])
          ++ (if DOCX_SUPPORT g then []
              else ["Warning: python-docx not installed. DOCX page counting will be unavailable.";
                    "Install with: pip install python-docx"]))%list.
Proof.
  intros installed. unfold module_init, import_from.
  destruct (installed "pypdf"), (installed "PyPDF2"), (installed "docx");
    simpl; eexists; eexists; (split; [reflexivity |]); repeat split.
Qed.

(** ** The CSV report, read back *)

(** X14. When no client name holds a double quote, a carriage return or a
    line feed, the text
    that [save_csv_report] writes reads back, as CSV, as the seven header
    fields, then one record of seven fields per client in the order of the
    names (the name, commas included, then the six numbers of the client),
    then the TOTAL record with the six numbers of the summary. *)
Theorem csv_report_round_trip :
  forall (r : Report) (output_path : string),
    (forall k, In k (keys (clients r)) ->
               Str.contains Str.dquote k = false
               /\ Str.contains newline k = false
               /\ Str.contains creturn k = false) ->
    exists text,
      writes (trace (save_csv_report r output_path)) = [(output_path, text)]
      /\ outcome (save_csv_report r output_path) = inr tt
      /\ csv_parse text
         = (header_fields
              :: map row_fields (sorted fst (clients r))
              ++ [total_fields (summary r)])%list.
Proof.
  intros r output_path Hnames. exists (csv_text r).
  rewrite save_csv_report_run. split; [reflexivity |].
  split; [reflexivity |]. apply csv_report_reads_back. exact Hnames.
Qed.

(** A carriage return in a name without comma is written as it is and cuts
    the record in two. *)
Example carriage_return_cuts_the_row :
  map (@List.length string)
      (csv_parse (csv_text (mkReport
                              [(String "a" (String creturn "b"),
                                empty_client_stats)]
                              empty_total_stats "/clients" "")))
  = [7; 1; 7; 7]%nat.
Proof. reflexivity. Qed.

Lemma csv_report_round_trip_witness :
  (forall k, In k (keys (clients smith_report)) ->
             Str.contains Str.dquote k = false
             /\ Str.contains newline k = false
             /\ Str.contains creturn k = false)
  /\ exists text,
      writes (trace (save_csv_report smith_report "report.csv"))
      = [("report.csv", text)]
      /\ outcome (save_csv_report smith_report "report.csv") = inr tt
      /\ csv_parse text
         = (header_fields
              :: map row_fields (sorted fst (clients smith_report))
              ++ [total_fields (summary smith_report)])%list.
Proof.
  assert (Hnames : forall k, In k (keys (clients smith_report)) ->
                             Str.contains Str.dquote k = false
                             /\ Str.contains newline k = false
                             /\ Str.contains creturn k = false).
  { intros k [<- | []]. repeat split. }
  split; [exact Hnames |].
  apply (csv_report_round_trip smith_report "report.csv" Hnames).
Defined.

(** ** The console summary *)

Lemma str_repeat_length (c : ascii) (n : nat) :
  String.length (Str.repeat (String c "") n) = n.
Proof. induction n as [| n IH]; simpl; [reflexivity | now rewrite IH]. Qed.

Lemma ljust_length (s : string) (w : nat) :
  String.length (ljust s w) = Nat.max w (String.length s).
Proof.
  unfold ljust. rewrite str_length_app, str_repeat_length. lia.
Qed.

Lemma rjust_length (s : string) (w : nat) :
  String.length (rjust s w) = Nat.max w (String.length s).
Proof.
  unfold rjust. rewrite str_length_app, str_repeat_length. lia.
Qed.

Lemma substring_length (n : nat) (s : string) :
  String.length (substring 0 n s) = Nat.min n (String.length s).
Proof.
  revert n. induction s as [| c s IH]; intros [| n]; simpl;
    try reflexivity.
  now rewrite IH.
Qed.

Lemma display_name_length (client_name : string) :
  (String.length (display_name client_name) <= 50)%nat
  /\ ((50 < String.length client_name)%nat ->
      String.length (display_name client_name) = 50%nat).
Proof.
  unfold display_name, str_prefix.
  destruct (Nat.ltb_spec 50 (String.length client_name)) as [H | H].
  - rewrite str_length_app, substring_length.
    change (String.length "...") with 3%nat. lia.
  - lia.
Qed.

(** X15. The name shown in the console table is the client name when it has
    at most 50 characters; a longer name is replaced by its first 47
    characters followed by three dots, 50 characters in all. So the shown
    name never has more than 50 characters and always starts like the
    client name. *)
Theorem display_name_is_at_most_50 :
  forall client_name : string,
    (String.length (display_name client_name) <= 50)%nat
    /\ ((String.length client_name <= 50)%nat ->
        display_name client_name = client_name)
    /\ ((50 < String.length client_name)%nat ->
        display_name client_name = str_prefix 47 client_name ++ "..."
        /\ String.length (display_name client_name) = 50%nat
        /\ exists rest, client_name = str_prefix 47 client_name ++ rest).
Proof.
  intros client_name.
  destruct (display_name_length client_name) as [Hle Hlong].
  split; [exact Hle |]. unfold display_name, str_prefix in *.
  destruct (Nat.ltb_spec 50 (String.length client_name)) as [H | H].
  - split; [lia |]. intros _.
    split; [reflexivity |]. split; [exact (Hlong H) |].
    eexists. apply (substring_split client_name 47).
  - split; [reflexivity | lia].
Qed.

(** X16. Each client line of the console table is the shown name padded to
    exactly 50 characters, a space, the number of documents and a space and
    the number of pages, each right-aligned in 8 characters: the line has 68
    characters whenever both numbers print in at most 8 characters, and the
    name column is 50 wide in any case. *)
Theorem table_rows_are_aligned :
  forall (client_name : string) (docs pages : Z),
    String.length (ljust (display_name client_name) 50) = 50%nat
    /\ String.length (table_row (display_name client_name) docs pages)
       = (50 + 1 + Nat.max 8 (String.length (Str.of_int docs))
          + 1 + Nat.max 8 (String.length (Str.of_int pages)))%nat
    /\ ((String.length (Str.of_int docs) <= 8)%nat ->
        (String.length (Str.of_int pages) <= 8)%nat ->
        String.length (table_row (display_name client_name) docs pages)
        = 68%nat).
Proof.
  intros client_name docs pages.
  destruct (display_name_length client_name) as [Hlen _].
  assert (Hcol : String.length (ljust (display_name client_name) 50) = 50%nat)
    by (rewrite ljust_length; lia).
  assert (Hrow : String.length (table_row (display_name client_name) docs pages)
                 = (50 + 1 + Nat.max 8 (String.length (Str.of_int docs))
                    + 1 + Nat.max 8 (String.length (Str.of_int pages)))%nat).
  { unfold table_row. rewrite !str_length_app, Hcol, !rjust_length.
    simpl String.length. lia. }
  split; [exact Hcol |]. split; [exact Hrow |].
  intros Hd Hp. rewrite Hrow. lia.
Qed.

(** ** Strings in the JSON report *)

Lemma read_escaped_char (c : ascii) (tail acc : string) :
  read_json_chars (json_escape_char c ++ tail) acc
  = read_json_chars tail (push acc c).
Proof.
  destruct c as [[] [] [] [] [] [] [] []]; reflexivity.
Qed.

Lemma read_escaped (s : string) :
  forall acc rest,
    read_json_chars (json_escape s ++ String Str.dquote rest) acc
    = Some (acc ++ s, rest).
Proof.
  induction s as [| c s IH]; intros acc rest.
  - simpl. now rewrite str_app_nil_r.
  - cbn [json_escape]. rewrite str_app_assoc, read_escaped_char, IH.
    unfold push. now rewrite str_app_assoc.
Qed.

(** X17. A string written into the JSON report (a client name, a file
    path) reads back as itself, whatever characters it holds (double
    quotes, backslashes, newlines and other control characters included),
    and what follows it in the text is left untouched; so two different
    strings are never written the same way. *)
Theorem json_strings_read_back :
  (forall s rest, read_json_string (json_quote s ++ rest) = Some (s, rest))
  /\ (forall s1 s2, json_quote s1 = json_quote s2 -> s1 = s2).
Proof.
  assert (Hread : forall s rest,
             read_json_string (json_quote s ++ rest) = Some (s, rest)).
  { intros s rest. unfold json_quote, read_json_string.
    cbn [append]. rewrite Ascii.eqb_refl, str_app_assoc. cbn [append].
    apply (read_escaped s "" rest). }
  split; [exact Hread |].
  intros s1 s2 H. pose proof (Hread s1 "") as H1. rewrite H in H1.
  rewrite Hread in H1. now injection H1.
Qed.

(** ** The main block *)








(** X18. When the target path is not a directory the main block writes no
    file. If the path is missing, the [FileNotFoundError] is caught: one
    line [Error: Path does not exist: ...] is printed and the block ends
    normally. If the path is a regular file, the [NotADirectoryError] is
    reported on one line [An error occurred: ...] and raised again. *)
Theorem main_without_directory_writes_nothing :
  forall (g : globals) (target_path : path) (st : path_state)
         (now json_output csv_output : string),
    is_directory st = false ->
    writes (trace (main g target_path st now json_output csv_output)) = []
    /\ (st = Missing ->
        main g target_path st now json_output csv_output
        = ([EvPrint ("Error: Path does not exist: " ++ path_str target_path)],
           inr tt))
    /\ (forall f, st = Present (File f) ->
        exists msg,
          main g target_path st now json_output csv_output
          = ([EvPrint ("An error occurred: " ++ msg)],
             inl (NotADirectoryError msg))).
Proof.
  intros g target_path st now json_output csv_output Hst.
  destruct st as [| [f | name entries] | name | name entries];
    try discriminate Hst.
  - split; [reflexivity |]. split; [reflexivity |]. intros f H. discriminate.
  - split; [reflexivity |]. split; [intros H; discriminate |].
    intros f' _. eexists. reflexivity.
Qed.




Lemma main_without_directory_witness :
  is_directory Missing = false
  /\ main demo_globals demo_path Missing demo_now "report.json" "report.csv"
     = ([EvPrint "Error: Path does not exist: /clients"], inr tt)
  /\ exists msg,
      main demo_globals demo_path (Present (File stray_pdf)) demo_now
           "report.json" "report.csv"
      = ([EvPrint ("An error occurred: " ++ msg)],
         inl (NotADirectoryError msg)).
Proof.
  split; [reflexivity |]. split.
  - apply (main_without_directory_writes_nothing
             demo_globals demo_path Missing demo_now "report.json"
             "report.csv" eq_refl). reflexivity.
  - apply (main_without_directory_writes_nothing
             demo_globals demo_path (Present (File stray_pdf)) demo_now
             "report.json" "report.csv" eq_refl) with (f := stray_pdf).
    reflexivity.
Defined.

(** ** The extension test *)

Lemma lower_app (a b : string) :
  Str.lower (a ++ b) = Str.lower a ++ Str.lower b.
Proof. induction a as [| c a IH]; simpl; [reflexivity | now rewrite IH]. Qed.

Lemma lower_length (s : string) : String.length (Str.lower s) = String.length s.
Proof. induction s as [| c s IH]; simpl; [reflexivity | now rewrite IH]. Qed.

Lemma str_app_inj_tail (a : string) :
  forall b c d,
    String.length b = String.length d -> a ++ b = c ++ d -> b = d.
Proof.
  induction a as [| x a IH]; intros b [| y c] d Hlen H; simpl in H.
  - exact H.
  - exfalso. apply (f_equal String.length) in H. simpl in H.
    rewrite str_length_app in H. lia.
  - exfalso. apply (f_equal String.length) in H. simpl in H.
    rewrite str_length_app in H. lia.
  - injection H as _ H. exact (IH b c d Hlen H).
Qed.

(** X20. The extension test ignores the case of the letters: a file name
    passes the test for an extension exactly when it ends with some
    spelling of it, that is with letters that turn into the extension when
    put in lower case ([.pdf], [.PDF], [.Pdf] and so on). *)
Theorem extension_test_ignores_case :
  forall name ext : string,
    has_ext name ext = true
    <-> exists stem suffix,
        name = stem ++ suffix /\ Str.lower suffix = ext.
Proof.
  intros name ext. unfold has_ext. split.
  - intros H. apply endswith_inv in H. destruct H as [pre Hpre].
    pose proof (f_equal String.length Hpre) as Hlen.
    rewrite lower_length, str_length_app in Hlen.
    set (n := (String.length name - String.length ext)%nat).
    pose proof (substring_split name n) as Hsplit.
    exists (substring 0 n name), (substring n (String.length name - n) name).
    split; [exact Hsplit |].
    apply (str_app_inj_tail (Str.lower (substring 0 n name)) _ pre).
    + rewrite lower_length.
      pose proof (f_equal String.length Hsplit) as Hl.
      rewrite str_length_app, substring_length in Hl. unfold n in *. lia.
    + rewrite <- lower_app, <- Hsplit. exact Hpre.
  - intros (stem & suffix & -> & <-). rewrite lower_app. apply endswith_app.
Qed.

(** ** Instances of the further properties *)

Lemma page_estimate_bounds_witness :
  3000 <= 7000 /\ 7000 <= 9000
  /\ 3000 * estimated_pages 7000 <= 7000 < 3000 * (estimated_pages 7000 + 1)
  /\ estimated_pages 7000 <= estimated_pages 9000.
Proof.
  destruct (page_estimate_bounds 7000 9000) as (_ & Hblock & Hmono).
  split; [lia |]. split; [lia |].
  split; [apply Hblock; lia | apply Hmono; lia].
Defined.


Lemma display_name_witness :
  (50 < String.length long_name)%nat
  /\ display_name long_name
     = "Holdings-Holdings-Holdings-Holdings-Holdings-Ho..."
  /\ String.length (display_name long_name) = 50%nat.
Proof.
  assert (Hlong : (50 < String.length long_name)%nat)
    by (vm_compute; repeat constructor).
  destruct (display_name_is_at_most_50 long_name) as (_ & _ & Hcut).
  destruct (Hcut Hlong) as (Heq & Hlen & _).
  split; [exact Hlong |]. split; [rewrite Heq; reflexivity | exact Hlen].
Defined.

Lemma table_rows_witness :
  (String.length (Str.of_int 3) <= 8)%nat
  /\ (String.length (Str.of_int 4) <= 8)%nat
  /\ String.length (table_row (display_name "Acme") 3 4) = 68%nat.
Proof.
  assert (H3 : (String.length (Str.of_int 3) <= 8)%nat)
    by (vm_compute; repeat constructor).
  assert (H4 : (String.length (Str.of_int 4) <= 8)%nat)
    by (vm_compute; repeat constructor).
  split; [exact H3 |]. split; [exact H4 |].
  apply (table_rows_are_aligned "Acme" 3 4); assumption.
Defined.
